(** * fips-validator: the ELF inspector, the compliance rules and the
      libcrypto scan, embedded from the Go sources

    Sources embedded here:
    - [pkg/elfinfo/elf.go]                 (module [Elfinfo])
    - [internal/executor]                  (module [Executor])
    - [internal/validation], both files    (module [Validation])

    Go's standard library and Masterminds/semver are not part of the
    repository.  What the code observes of the operating system (opening an
    ELF file, reading build information, [Lstat], [ReadDir], running a
    command) is gathered in the record [World]; the few pure library
    functions the code calls on strings are written out in module [Go]. *)

From Stdlib Require Import Bool List String Ascii NArith ZArith Lia DecimalString.
Import ListNotations.
Open Scope string_scope.
Open Scope list_scope.

(* ------------------------------------------------------------------ *)
(** ** Go library functions on strings and byte slices *)

Module Go.

(** [strings.HasPrefix s p]. *)
Definition strings_HasPrefix (s p : string) : bool := String.prefix p s.

(** [strings.TrimPrefix s p]. *)
Definition strings_TrimPrefix (s p : string) : string :=
  if String.prefix p s
  then String.substring (String.length p) (String.length s - String.length p) s
  else s.

(** [strings.Contains s substr]; [bytes.Contains] is the same function on
    byte slices, which are modelled as strings of bytes too. *)
Fixpoint strings_Contains (s substr : string) : bool :=
  String.prefix substr s
  || match s with
     | EmptyString => false
     | String _ s' => strings_Contains s' substr
     end.

Definition bytes_Contains : string -> string -> bool := strings_Contains.

(** [strings.IndexByte s c]: [None] stands for Go's [-1]. *)
Fixpoint strings_IndexByte (s : string) (c : ascii) : option nat :=
  match s with
  | EmptyString => None
  | String a s' =>
      if Ascii.eqb a c then Some 0
      else option_map S (strings_IndexByte s' c)
  end.

(** The slice expression [s[:i]]. *)
Definition slice_to (s : string) (i : nat) : string := String.substring 0 i s.

(** [strings.Split s sep] for a non-empty separator.  [skip] counts the
    bytes of a separator occurrence still to be dropped and [cur] is the
    piece read so far. *)
Fixpoint split_from (sep : string) (skip : nat) (cur s : string) : list string :=
  match s with
  | EmptyString => [cur]
  | String c s' =>
      match skip with
      | S k => split_from sep k cur s'
      | O =>
          if String.prefix sep s
          then cur :: split_from sep (String.length sep - 1) EmptyString s'
          else split_from sep 0 (cur ++ String c EmptyString) s'
      end
  end.

Definition strings_Split (s sep : string) : list string :=
  split_from sep 0 EmptyString s.

(** [slices.Contains xs x] on a slice of strings. *)
Definition slices_Contains (xs : list string) (x : string) : bool :=
  existsb (String.eqb x) xs.

End Go.

(* ------------------------------------------------------------------ *)
(** ** Errors, output and the effect monad *)

(** A Go [error] value: either one carrying a ready message (library errors,
    [errors.New]) or one built by [fmt.Errorf], kept as the format string
    with its arguments. *)
Inductive error : Type :=
| ErrorsNew (msg : string)
| Errorf (format : string) (args : list string).

(** What a run writes: [fmt.Printf] calls, the coloured [success] and
    [failure] printers, the line printed for each collected error
    ([fmt.Printf "  %s %v\n" (red cross) e]) and the calls of the [debugFunc]
    callback. *)
Inductive event : Type :=
| Printf (format : string) (args : list string)
| PrintSuccess (text : string)
| PrintFailure (text : string)
| PrintError (e : error)
| Debugf (format : string) (args : list string).

(** A computation writes events and either returns a value or stops in a
    run-time panic ([None]): an index out of range or a nil dereference. *)
Definition M (A : Type) : Type := list event * option A.

Definition ret {A} (a : A) : M A := ([], Some a).
Definition panic {A} : M A := ([], None).
Definition emit (e : event) : M unit := ([e], Some tt).

Definition bind {A B} (m : M A) (f : A -> M B) : M B :=
  match snd m with
  | None => (fst m, None)
  | Some a => (fst m ++ fst (f a), snd (f a))
  end.

Declare Scope go_scope.
Delimit Scope go_scope with go.
Notation "x <- c1 ;; c2" := (bind c1 (fun x => c2))
  (at level 100, c1 at next level, right associativity) : go_scope.
Notation "c1 ;;; c2" := (bind c1 (fun _ => c2))
  (at level 100, right associativity) : go_scope.
Open Scope go_scope.

(** The errors a run printed, in order. *)
Fixpoint reasons (log : list event) : list error :=
  match log with
  | [] => []
  | PrintError e :: log' => e :: reasons log'
  | _ :: log' => reasons log'
  end.

(** [for _, e := range errs { fmt.Printf(...) }] *)
Fixpoint print_errors (errs : list error) : M unit :=
  match errs with
  | [] => ret tt
  | e :: errs' => emit (PrintError e) ;;; print_errors errs'
  end.

(** Indexing a slice, [xs[i]]: panics when [i] is out of range. *)
Definition index {A} (xs : list A) (i : N) : M A :=
  match nth_error xs (N.to_nat i) with
  | Some x => ret x
  | None => panic
  end.

(* ------------------------------------------------------------------ *)
(** ** Masterminds/semver: versions and the [>=] constraint

    The library is a dependency, not part of the repository.  The model
    follows its documented loose syntax: an optional [v], one to three
    dot-separated 64-bit numbers, an optional pre-release after [-] and
    optional metadata after [+], both made of dot-separated identifiers; and
    the one kind of constraint the requirement table uses. *)

Module Semver.

Record Version : Type := mkVersion {
  major : N;
  minor : N;
  patch : N;
  pre : string;
  metadata : string
}.

Definition is_digit (c : ascii) : bool :=
  let n := N_of_ascii c in (48 <=? n)%N && (n <=? 57)%N.

Definition is_allowed (c : ascii) : bool :=
  let n := N_of_ascii c in
  is_digit c
  || ((65 <=? n)%N && (n <=? 90)%N)
  || ((97 <=? n)%N && (n <=? 122)%N)
  || (n =? 45)%N.

Fixpoint span (p : ascii -> bool) (s : string) : string * string :=
  match s with
  | EmptyString => (EmptyString, EmptyString)
  | String c s' =>
      if p c then (String c (fst (span p s')), snd (span p s'))
      else (EmptyString, s)
  end.

Fixpoint all_chars (p : ascii -> bool) (s : string) : bool :=
  match s with
  | EmptyString => true
  | String c s' => p c && all_chars p s'
  end.

(** [strconv.ParseUint digits 10 64] on a string of digits. *)
Fixpoint digits_value (acc : N) (s : string) : N :=
  match s with
  | EmptyString => acc
  | String c s' => digits_value (acc * 10 + (N_of_ascii c - 48))%N s'
  end.

Definition ParseUint (s : string) : option N :=
  let n := digits_value 0 s in
  if (n <? 2 ^ 64)%N then Some n else None.

(** An optional [.N] group: the digits and what follows them. *)
Definition dot_number (s : string) : option string * string :=
  match s with
  | String "." s' =>
      match span is_digit s' with
      | (EmptyString, _) => (None, s)
      | (d, rest) => (Some d, rest)
      end
  | _ => (None, s)
  end.

(** [id(.id)*] with non-empty identifiers of allowed characters. *)
Definition dotted_ids (s : string) : bool :=
  forallb (fun p => negb (String.eqb p EmptyString) && all_chars is_allowed p)
          (Go.strings_Split s ".").

(** An optional group introduced by [tag]: [-pre] or [+meta]. *)
Definition tagged (tag : ascii) (s : string) : string * string :=
  match s with
  | String c s' =>
      if Ascii.eqb c tag then
        let body := fst (span (fun a => is_allowed a || Ascii.eqb a ".") s') in
        let rest := snd (span (fun a => is_allowed a || Ascii.eqb a ".") s') in
        if dotted_ids body then (body, rest) else (EmptyString, s)
      else (EmptyString, s)
  | EmptyString => (EmptyString, s)
  end.

(** [validatePrerelease]: a numeric identifier has no leading zero. *)
Definition validatePrerelease (p : string) : bool :=
  forallb (fun id =>
             negb (all_chars is_digit id
                   && Nat.ltb 1 (String.length id)
                   && String.prefix "0" id))
          (Go.strings_Split p ".").

Definition ErrInvalidSemVer : string := "Invalid Semantic Version".
Definition ErrSegmentStartsZero : string := "Version segment starts with 0".
Definition ErrParseSegment : string := "Error parsing version segment".

Definition number_or_zero (d : option string) : option N :=
  match d with
  | None => Some 0%N
  | Some s => ParseUint s
  end.

(** [semver.NewVersion]: the error message on the left.  Numeric
    segments may start with zeros, as in the releases that coerce them, and
    the message for a segment that overflows is the library's prefix
    without the detail [strconv] adds to it. *)
Definition NewVersion (v : string) : string + Version :=
  let s0 := match v with String "v" s' => s' | _ => v end in
  match span is_digit s0 with
  | (EmptyString, _) => inl ErrInvalidSemVer
  | (maj, r1) =>
      let '(mino, r2) := dot_number r1 in
      let '(pat, r3) := dot_number r2 in
      let '(p, r4) := tagged "-" r3 in
      let '(m, r5) := tagged "+" r4 in
      match r5 with
      | String _ _ => inl ErrInvalidSemVer
      | EmptyString =>
          match ParseUint maj, number_or_zero mino, number_or_zero pat with
          | Some a, Some b, Some c =>
              if validatePrerelease p
              then inr (mkVersion a b c p m)
              else inl ErrSegmentStartsZero
          | _, _, _ => inl ErrParseSegment
          end
      end
  end.

Definition N_to_string (n : N) : string :=
  DecimalString.NilZero.string_of_uint (N.to_uint n).

(** [Version.String]. *)
Definition String_ (v : Version) : string :=
  N_to_string (major v) ++ "." ++ N_to_string (minor v) ++ "."
  ++ N_to_string (patch v)
  ++ (if String.eqb (pre v) EmptyString then EmptyString else "-" ++ pre v)
  ++ (if String.eqb (metadata v) EmptyString then EmptyString
      else "+" ++ metadata v).

(** A constraint [>= a.b.c] on release versions, the only form in the
    requirement table. *)
Record Constraints : Type := GreaterThanEqual {
  con_major : N;
  con_minor : N;
  con_patch : N
}.

(** The order of [Version.Compare] on the numeric segments. *)
Definition compare_numbers (v : Version) (c : Constraints) : comparison :=
  match (major v ?= con_major c)%N with
  | Eq =>
      match (minor v ?= con_minor c)%N with
      | Eq => (patch v ?= con_patch c)%N
      | o => o
      end
  | o => o
  end.

(** [Constraints.Check]: a pre-release never satisfies a constraint that
    names none; otherwise the version must compare [>=]. *)
Definition Check (c : Constraints) (v : Version) : bool :=
  if negb (String.eqb (pre v) EmptyString) then false
  else match compare_numbers v c with
       | Lt => false
       | _ => true
       end.

End Semver.

(* ------------------------------------------------------------------ *)
(** ** debug/elf, debug/buildinfo, os: the data the code reads *)

Module Elf.

Definition ET_EXEC : N := 2.
Definition ET_DYN : N := 3.
Definition PT_INTERP : N := 3.
Definition DT_FLAGS_1 : N := 0x6ffffffb.
Definition DF_1_PIE : N := 0x08000000.
Definition SHN_UNDEF : N := 0.
Definition SHN_LORESERVE : N := 0xff00.

(** [elf.Symbol]; [Section] is an [elf.SectionIndex], which debug/elf
    fills from an unsigned field of the symbol table. *)
Record Symbol : Type := mkSymbol {
  Name : string;
  Section : N
}.

(** An opened [*elf.File]: its type, the [Type] of each program header,
    the [Name] of each section, and the results of the methods [Symbols]
    and [DynValue]. *)
Record File : Type := mkFile {
  Type_ : N;
  Progs : list N;
  Sections : list string;
  Symbols : list Symbol * option string;
  DynValue : N -> list N * option string
}.

End Elf.

Module Buildinfo.

Record BuildSetting : Type := mkSetting {
  Key : string;
  Value : string
}.

Record BuildInfo : Type := mkBuildInfo {
  GoVersion : string;
  Settings : list BuildSetting
}.

End Buildinfo.

Module Os.

(** [fs.FileMode] bits. *)
Definition ModeDir : N := N.shiftl 1 31.
Definition ModeSymlink : N := N.shiftl 1 27.
Definition ModeDevice : N := N.shiftl 1 26.
Definition ModeNamedPipe : N := N.shiftl 1 25.
Definition ModeSocket : N := N.shiftl 1 24.
Definition ModeCharDevice : N := N.shiftl 1 21.
Definition ModeIrregular : N := N.shiftl 1 19.
Definition ModeType : N :=
  N.lor ModeDir (N.lor ModeSymlink (N.lor ModeNamedPipe (N.lor ModeSocket
    (N.lor ModeDevice (N.lor ModeCharDevice ModeIrregular))))).

(** [FileMode.IsRegular]. *)
Definition IsRegular (m : N) : bool := (N.land m ModeType =? 0)%N.

(** An [fs.DirEntry] as [os.ReadDir] returns it: its name and type bits. *)
Record DirEntry : Type := mkDirEntry {
  EntryName : string;
  EntryType : N
}.

(** [DirEntry.IsDir]. *)
Definition IsDir (e : DirEntry) : bool :=
  negb (N.land (EntryType e) ModeDir =? 0)%N.

(** How [exec.Cmd.Run] ended: [nil], an [*exec.ExitError] with its exit
    code, or another error (the command could not be started). *)
Inductive RunError : Type :=
| RunNil
| RunExitError (code : Z)
| RunOtherError (msg : string).

Record CmdResult : Type := mkCmdResult {
  cmd_stdout : string;
  cmd_stderr : string;
  cmd_error : RunError
}.

End Os.

(** The environment of a run, read-only.  Errors are given by their
    message. *)
Record World : Type := mkWorld {
  elf_Open : string -> string + Elf.File;
  buildinfo_ReadFile : string -> string + Buildinfo.BuildInfo;
  filepath_Join : string -> string -> string;
  os_Lstat : string -> string + N;
  os_ReadDir : string -> string + list Os.DirEntry;
  cmd_Run : string -> string -> list string -> Os.CmdResult
}.

(* ------------------------------------------------------------------ *)
(** ** pkg/elfinfo *)

Module Elfinfo.

Record ElfInfo : Type := mkElfInfo {
  IsElf : bool;
  IsStatic : bool;
  Sections : list string;
  Symbols : list Elf.Symbol
}.

(** [&ElfInfo{}] *)
Definition zero : ElfInfo := mkElfInfo false false [] [].

(** Static binaries do not have a [PT_INTERP] program. *)
Fixpoint isStatic_loop (progs : list N) : bool :=
  match progs with
  | [] => true
  | p :: rest => if (p =? Elf.PT_INTERP)%N then false else isStatic_loop rest
  end.

Definition isStatic (exe : Elf.File) : bool := isStatic_loop (Elf.Progs exe).

Fixpoint isPie_loop (vals : list N) : bool :=
  match vals with
  | [] => false
  | f :: rest =>
      if negb (N.land f Elf.DF_1_PIE =? 0)%N then true else isPie_loop rest
  end.

Definition isPie (file : Elf.File) : bool * option string :=
  match Elf.DynValue file Elf.DT_FLAGS_1 with
  | (_, Some err) => (false, Some err)
  | (vals, None) => (isPie_loop vals, None)
  end.

Definition getSectionNames (file : Elf.File) : list string := Elf.Sections file.

(** [ReadFile] returns a pointer and an error; both can be set. *)
Definition ReadFile (w : World) (path : string) : option ElfInfo * option string :=
  match elf_Open w path with
  | inl err => (None, Some err)
  | inr exe =>
      if (Elf.Type_ exe =? Elf.ET_EXEC)%N then
        (Some (mkElfInfo true (isStatic exe) (getSectionNames exe)
                         (fst (Elf.Symbols exe))), None)
      else if (Elf.Type_ exe =? Elf.ET_DYN)%N then
        match isPie exe with
        | (_, Some err) => (Some zero, Some err)
        | (false, None) => (Some zero, None)
        | (true, None) =>
            (Some (mkElfInfo true (isStatic exe) (getSectionNames exe)
                             (fst (Elf.Symbols exe))), None)
        end
      else (Some zero, None)
  end.

End Elfinfo.

(* ------------------------------------------------------------------ *)
(** ** internal/executor *)

Module Executor.

(** [Execute] returns stdout, stderr, the exit code and an error. *)
Definition Execute (w : World) (workingDir command : string) (args : list string)
  : string * string * Z * option string :=
  let r := cmd_Run w workingDir command args in
  match Os.cmd_error r with
  | Os.RunExitError code => (Os.cmd_stdout r, Os.cmd_stderr r, code, None)
  | Os.RunOtherError msg => (Os.cmd_stdout r, Os.cmd_stderr r, (-1)%Z, Some msg)
  | Os.RunNil => (Os.cmd_stdout r, Os.cmd_stderr r, 0%Z, None)
  end.

End Executor.

(* ------------------------------------------------------------------ *)
(** ** internal/validation: the libcrypto scan *)

Module Validation.

Import Elfinfo.

Definition libPaths : list string := ["/lib64"; "/usr/lib64"; "/lib"; "/usr/lib"].

(** [s[n:]] *)
Definition slice_from (s : string) (n : nat) : string :=
  String.substring n (String.length s - n) s.

(** What may follow [.so] in a match: the end of the name, or a dot. *)
Definition so_tail (s : string) : bool :=
  match s with
  | EmptyString => true
  | String c _ => Ascii.eqb c "."
  end.

(** The pattern after its fixed prefix, tried at the head of [s]: any
    bytes but a line feed, then [.so], then the end of the name or a
    dot. *)
Fixpoint any_so (s : string) : bool :=
  (String.prefix ".so" s && so_tail (slice_from s 3))
  || match s with
     | EmptyString => false
     | String c s' => negb (Ascii.eqb c "010") && any_so s'
     end.

Definition cryptoLibRegex : string := "^libcrypto.*\.so($|\..*)".

(** [cryptoLibRegex.MatchString]: the matcher of the pattern above. *)
Definition cryptoLibRegex_MatchString (name : string) : bool :=
  String.prefix "libcrypto" name && any_so (slice_from name 9).

(** The loop over the entries of one directory. *)
Fixpoint findCryptoLibs_entries (w : World) (libPath : string)
         (entries : list Os.DirEntry) (libs : list string) : list string :=
  match entries with
  | [] => libs
  | entry :: rest =>
      if negb (Os.IsDir entry) && Os.IsRegular (Os.EntryType entry) then
        if cryptoLibRegex_MatchString (Os.EntryName entry) then
          findCryptoLibs_entries w libPath rest
            (libs ++ [filepath_Join w libPath (Os.EntryName entry)])
        else findCryptoLibs_entries w libPath rest libs
      else findCryptoLibs_entries w libPath rest libs
  end.

(** The loop over [libPaths]; each [continue] goes on with [rest]. *)
Fixpoint findCryptoLibs_dirs (w : World) (rootPath : string)
         (paths : list string) (libs : list string) : list string :=
  match paths with
  | [] => libs
  | libPath :: rest =>
      let dir := filepath_Join w rootPath libPath in
      match os_Lstat w dir with
      | inl _ => findCryptoLibs_dirs w rootPath rest libs
      | inr mode =>
          if negb (N.land mode Os.ModeSymlink =? 0)%N then
            findCryptoLibs_dirs w rootPath rest libs
          else
            match os_ReadDir w dir with
            | inl _ => findCryptoLibs_dirs w rootPath rest libs
            | inr entries =>
                findCryptoLibs_dirs w rootPath rest
                  (findCryptoLibs_entries w libPath entries libs)
            end
      end
  end.

Definition findCryptoLibs (w : World) (rootPath : string) : list string :=
  findCryptoLibs_dirs w rootPath libPaths [].

Definition err_libcrypto_not_found : error :=
  Errorf "libcrypto not found (missing package openssl-libs?)" [].

Definition err_not_fips_capable (lib : string) : error :=
  Errorf "%s is not FIPS-capable" [lib].

(** Whether the output of [nm -D] shows one of the three indicators. *)
Definition hasFIPS (stdout : string) : bool :=
  Go.bytes_Contains stdout "FIPS_mode"
  || Go.bytes_Contains stdout "fips_mode"
  || Go.bytes_Contains stdout "EVP_default_properties_is_fips_enabled".

(** The loop over the libraries found. *)
Fixpoint ValidateOpenSSL_libs (w : World) (rootPath : string)
         (cryptoLibs : list string) (errs : list error) : list error :=
  match cryptoLibs with
  | [] => errs
  | lib :: rest =>
      match Executor.Execute w "" "nm" ["-D"; filepath_Join w rootPath lib] with
      | (_, _, _, Some err) =>
          ValidateOpenSSL_libs w rootPath rest (errs ++ [ErrorsNew err])
      | (stdout, stderr, rc, None) =>
          if negb (rc =? 0)%Z then
            ValidateOpenSSL_libs w rootPath rest (errs ++ [ErrorsNew stderr])
          else if negb (hasFIPS stdout) then
            ValidateOpenSSL_libs w rootPath rest (errs ++ [err_not_fips_capable lib])
          else ValidateOpenSSL_libs w rootPath rest errs
      end
  end.

(** The common end of both validations. *)
Definition report (errs : list error) : M bool :=
  if Nat.ltb 0 (List.length errs) then
    emit (PrintFailure "failed\n") ;;;
    print_errors errs ;;;
    ret false
  else
    emit (PrintSuccess "success\n") ;;;
    ret true.

Definition ValidateOpenSSL (w : World) (rootPath : string) : M bool :=
  emit (Printf "• validating libcrypto is present and FIPS-capable... " []) ;;;
  let cryptoLibs := findCryptoLibs w rootPath in
  let errs :=
    if Nat.eqb (List.length cryptoLibs) 0 then [] ++ [err_libcrypto_not_found]
    else ValidateOpenSSL_libs w rootPath cryptoLibs [] in
  report errs.

(* ------------------------------------------------------------------ *)
(** *** The per-binary rules *)

Record versionConstrainedReqs : Type := mkReqs {
  versions : Semver.Constraints;
  requirements : list string
}.

(** The table; [versions] of its entry is [newSemverConstraint ">= 1.23"]. *)
Definition requiredSymbolsForGoVersions : list versionConstrainedReqs :=
  [ mkReqs (Semver.GreaterThanEqual 1 23 0)
           ["vendor/github.com/golang-fips/openssl/v2.dlopen"] ].

(** The guard of the three symbol loops:
    [sym.Section >= elf.SHN_LORESERVE || int(sym.Section) >= len(info.Sections)]. *)
Definition skipped (info : ElfInfo) (sym : Elf.Symbol) : bool :=
  (Elf.SHN_LORESERVE <=? Elf.Section sym)%N
  || (N.of_nat (List.length (Sections info)) <=? Elf.Section sym)%N.

Fixpoint usesCrypto_loop (info : ElfInfo) (syms : list Elf.Symbol) : M bool :=
  match syms with
  | [] => ret false
  | sym :: rest =>
      if skipped info sym then usesCrypto_loop info rest
      else
        section <- index (Sections info) (Elf.Section sym) ;;
        if Go.strings_Contains (Elf.Name sym) "crypto"
           && negb (Go.slices_Contains [".bss"] section)
        then
          emit (Debugf "found crypto symbol %q in section %q"
                       [Elf.Name sym; section]) ;;;
          ret true
        else usesCrypto_loop info rest
  end.

Definition usesCrypto (info : ElfInfo) : M bool :=
  usesCrypto_loop info (Symbols info).

Definition err_statically_linked : error := Errorf "statically linked" [].

Definition validateNotStaticallyLinked (info : ElfInfo) : list error :=
  if IsStatic info then [err_statically_linked] else [].

Definition err_not_cgo_enabled : error :=
  Errorf "not compiled with CGO_ENABLED=1" [].

Fixpoint validateCgoEnabled_loop (settings : list Buildinfo.BuildSetting) : list error :=
  match settings with
  | [] => [err_not_cgo_enabled]
  | bs :: rest =>
      if String.eqb (Buildinfo.Key bs) "CGO_ENABLED"
         && String.eqb (Buildinfo.Value bs) "1"
      then []
      else validateCgoEnabled_loop rest
  end.

Definition validateCgoEnabled (bi : Buildinfo.BuildInfo) : list error :=
  validateCgoEnabled_loop (Buildinfo.Settings bi).

Definition err_missing_cgo_init : error := Errorf "missing cgo_init symbol" [].

Fixpoint validateCgoInit_loop (info : ElfInfo) (syms : list Elf.Symbol)
  : M (list error) :=
  match syms with
  | [] => ret [err_missing_cgo_init]
  | sym :: rest =>
      if skipped info sym then validateCgoInit_loop info rest
      else
        section <- index (Sections info) (Elf.Section sym) ;;
        if (String.eqb (Elf.Name sym) "_cgo_init"
            || String.eqb (Elf.Name sym) "_cgo_topofstack")
           && negb (Go.slices_Contains [".bss"] section)
        then ret []
        else validateCgoInit_loop info rest
  end.

Definition validateCgoInit (info : ElfInfo) : M (list error) :=
  validateCgoInit_loop info (Symbols info).

(** The first loop of [validateGoSymbols]: the requirements of the first
    entry whose constraint the version satisfies, [nil] when none does. *)
Fixpoint requiredSymbols_of (table : list versionConstrainedReqs)
         (goVersion : Semver.Version) : list string :=
  match table with
  | [] => []
  | req :: rest =>
      if Semver.Check (versions req) goVersion then requirements req
      else requiredSymbols_of rest goVersion
  end.

Definition err_unsupported_version (goVersion : Semver.Version) : error :=
  Errorf "uses Go version %s, which is not yet supported by fips-validator"
         [Semver.String_ goVersion].

Definition err_missing_symbol (rs : string) : error :=
  Errorf "missing required symbol %q" [rs].

(** The inner loop: is [rs] among the symbols, outside [.bss]? *)
Fixpoint found_loop (info : ElfInfo) (rs : string) (syms : list Elf.Symbol)
  : M bool :=
  match syms with
  | [] => ret false
  | sym :: rest =>
      if skipped info sym then found_loop info rs rest
      else
        section <- index (Sections info) (Elf.Section sym) ;;
        if String.eqb (Elf.Name sym) rs
           && negb (Go.slices_Contains [".bss"] section)
        then ret true
        else found_loop info rs rest
  end.

Fixpoint validateGoSymbols_loop (info : ElfInfo) (requiredSymbols : list string)
         (errs : list error) : M (list error) :=
  match requiredSymbols with
  | [] => ret errs
  | rs :: rest =>
      found <- found_loop info rs (Symbols info) ;;
      if negb found
      then validateGoSymbols_loop info rest (errs ++ [err_missing_symbol rs])
      else validateGoSymbols_loop info rest errs
  end.

Definition validateGoSymbols (info : ElfInfo) (goVersion : Semver.Version)
  : M (list error) :=
  let requiredSymbols := requiredSymbols_of requiredSymbolsForGoVersions goVersion in
  if Nat.eqb (List.length requiredSymbols) 0 then
    ret [err_unsupported_version goVersion]
  else validateGoSymbols_loop info requiredSymbols [].

(** The first [-tags] setting, split at commas; no tags without one. *)
Fixpoint buildTags_of (settings : list Buildinfo.BuildSetting) : list string :=
  match settings with
  | [] => []
  | bs :: rest =>
      if String.eqb (Buildinfo.Key bs) "-tags"
      then Go.strings_Split (Buildinfo.Value bs) ","
      else buildTags_of rest
  end.

Definition deniedTags : list string := ["no_openssl"].

Definition err_forbidden_tag (tag : string) : error :=
  Errorf "uses forbidden build tag %v" [tag].

Fixpoint deniedTags_loop (buildTags tags : list string) (errs : list error)
  : list error :=
  match tags with
  | [] => errs
  | tag :: rest =>
      if Go.slices_Contains buildTags tag
      then deniedTags_loop buildTags rest (errs ++ [err_forbidden_tag tag])
      else deniedTags_loop buildTags rest errs
  end.

Definition err_missing_goexperiment : error :=
  Errorf "missing required GOEXPERIMENT value 'strictfipsruntime'" [].

Fixpoint goexperiment_loop (settings : list Buildinfo.BuildSetting)
         (errs : list error) : list error :=
  match settings with
  | [] => errs
  | bs :: rest =>
      if String.eqb (Buildinfo.Key bs) "GOEXPERIMENT"
         && negb (Go.strings_Contains (Buildinfo.Value bs) "strictfipsruntime")
      then goexperiment_loop rest (errs ++ [err_missing_goexperiment])
      else goexperiment_loop rest errs
  end.

Definition validateGoTagsAndExperiment (info : Buildinfo.BuildInfo) : list error :=
  let buildTags := buildTags_of (Buildinfo.Settings info) in
  let errs := deniedTags_loop buildTags deniedTags [] in
  goexperiment_loop (Buildinfo.Settings info) errs.

Definition err_parse_go_version (goVersion err : string) : error :=
  Errorf "failed to parse Go version %q: %v" [goVersion; err].

(** The version text handed to the parser: [GoVersion] without its [go]
    prefix, cut at the first space. *)
Definition version_text (bi : Buildinfo.BuildInfo) : string :=
  let ver := Go.strings_TrimPrefix (Buildinfo.GoVersion bi) "go" in
  match Go.strings_IndexByte ver " " with
  | Some i => Go.slice_to ver i
  | None => ver
  end.

(** Dereferencing the pointer [ReadFile] returned. *)
Definition deref {A} (p : option A) : M A :=
  match p with
  | Some a => ret a
  | None => panic
  end.

Definition ValidateBinary (w : World) (rootPath path : string) : M bool :=
  emit (Printf "• validating binary %s... " [path]) ;;;
  match ReadFile w (filepath_Join w rootPath path) with
  | (_, Some err) =>
      (if Go.strings_HasPrefix err "bad magic number '[35 33"
       then emit (Printf "skipped (shell script)\n" [])
       else emit (Printf "skipped (failed to read ELF info: %v)\n" [err])) ;;;
      ret true
  | (p, None) =>
      ei <- deref p ;;
      if negb (IsElf ei) then
        emit (Printf "skipped (not an ELF executable)\n" []) ;;;
        ret true
      else
        crypto <- usesCrypto ei ;;
        if negb crypto then
          emit (Printf "skipped (no crypto)\n" []) ;;;
          ret true
        else
          let errs := [] ++ validateNotStaticallyLinked ei in
          errs <-
            match buildinfo_ReadFile w (filepath_Join w rootPath path) with
            | inl err =>
                emit (Debugf "skipping further validation (not a Go binary): %v"
                             [err]) ;;;
                ret errs
            | inr bi =>
                match Semver.NewVersion (version_text bi) with
                | inl err =>
                    ret (errs ++ [err_parse_go_version (Buildinfo.GoVersion bi) err])
                | inr goVersion =>
                    let errs := errs ++ validateCgoEnabled bi in
                    e <- validateCgoInit ei ;;
                    let errs := errs ++ e in
                    e <- validateGoSymbols ei goVersion ;;
                    let errs := errs ++ e in
                    ret (errs ++ validateGoTagsAndExperiment bi)
                end
            end ;;
          report errs
  end.

End Validation.

(* ------------------------------------------------------------------ *)
(** ** Notions used to state the properties *)

Module Spec.

Import Elfinfo Validation.

(** Symbol-to-section correlation: the name of the section that owns a
    symbol, none when the guard of the loops skips the symbol. *)
Definition owner (info : ElfInfo) (sym : Elf.Symbol) : option string :=
  if skipped info sym then None
  else nth_error (Sections info) (N.to_nat (Elf.Section sym)).

(** The symbol is owned by a section other than [.bss]. *)
Definition outside_bss (info : ElfInfo) (sym : Elf.Symbol) : bool :=
  match owner info sym with
  | Some section => negb (Go.slices_Contains [".bss"] section)
  | None => false
  end.

Definition crypto_symbol (info : ElfInfo) (sym : Elf.Symbol) : bool :=
  Go.strings_Contains (Elf.Name sym) "crypto" && outside_bss info sym.

Definition cgo_init_symbol (info : ElfInfo) (sym : Elf.Symbol) : bool :=
  (String.eqb (Elf.Name sym) "_cgo_init"
   || String.eqb (Elf.Name sym) "_cgo_topofstack")
  && outside_bss info sym.

Definition required_symbol (info : ElfInfo) (rs : string) (sym : Elf.Symbol) : bool :=
  String.eqb (Elf.Name sym) rs && outside_bss info sym.

(** The same image with another symbol table. *)
Definition with_symbols (info : ElfInfo) (syms : list Elf.Symbol) : ElfInfo :=
  mkElfInfo (IsElf info) (IsStatic info) (Sections info) syms.

(** What [validateCgoInit] and [validateGoSymbols] return, as plain
    functions of the image. *)
Definition cgoInit_errors (info : ElfInfo) : list error :=
  if existsb (cgo_init_symbol info) (Symbols info) then []
  else [err_missing_cgo_init].

Definition missing_symbols (info : ElfInfo) (required : list string) : list error :=
  map err_missing_symbol
      (filter (fun rs => negb (existsb (required_symbol info rs) (Symbols info)))
              required).

Definition goSymbols_errors (info : ElfInfo) (goVersion : Semver.Version) : list error :=
  let required := requiredSymbols_of requiredSymbolsForGoVersions goVersion in
  if Nat.eqb (List.length required) 0 then [err_unsupported_version goVersion]
  else missing_symbols info required.

(** The errors [ValidateBinary] collects for a crypto-using image. *)
Definition rule_errors (w : World) (rootPath path : string) (ei : ElfInfo) : list error :=
  validateNotStaticallyLinked ei
  ++ match buildinfo_ReadFile w (filepath_Join w rootPath path) with
     | inl _ => []
     | inr bi =>
         match Semver.NewVersion (version_text bi) with
         | inl err => [err_parse_go_version (Buildinfo.GoVersion bi) err]
         | inr goVersion =>
             validateCgoEnabled bi ++ cgoInit_errors ei
             ++ goSymbols_errors ei goVersion
             ++ validateGoTagsAndExperiment bi
         end
     end.

(** A library directory the scan passes over: [Lstat] fails, the
    directory is a symbolic link, or it cannot be listed. *)
Definition dir_skipped (w : World) (rootPath libPath : string) : Prop :=
  let dir := filepath_Join w rootPath libPath in
  (exists err, os_Lstat w dir = inl err)
  \/ (exists mode, os_Lstat w dir = inr mode /\ N.land mode Os.ModeSymlink <> 0%N)
  \/ (exists err, os_ReadDir w dir = inl err).

(** A candidate library file: a regular, non-directory entry whose name
    matches the pattern. *)
Definition candidate (e : Os.DirEntry) : bool :=
  negb (Os.IsDir e) && Os.IsRegular (Os.EntryType e)
  && cryptoLibRegex_MatchString (Os.EntryName e).

(** The libraries one library directory contributes to the scan. *)
Definition dir_libs (w : World) (rootPath libPath : string) : list string :=
  let dir := filepath_Join w rootPath libPath in
  match os_Lstat w dir with
  | inl _ => []
  | inr mode =>
      if (N.land mode Os.ModeSymlink =? 0)%N then
        match os_ReadDir w dir with
        | inl _ => []
        | inr entries =>
            map (fun e => filepath_Join w libPath (Os.EntryName e))
                (filter candidate entries)
        end
      else []
  end.


End Spec.

(* ------------------------------------------------------------------ *)
(** ** Concrete environments used in the examples *)

Module Examples.

Import Elfinfo Validation.

Definition dlopen : string := "vendor/github.com/golang-fips/openssl/v2.dlopen".

(** A plain [filepath.Join] of two elements, right on the clean paths of
    these examples: one slash between the two. *)
Fixpoint drop_last_slash (a : string) : string :=
  match a with
  | EmptyString => EmptyString
  | String c EmptyString => if Ascii.eqb c "/" then EmptyString else a
  | String c a' => String c (drop_last_slash a')
  end.

Definition join (a b : string) : string :=
  drop_last_slash a ++ "/" ++ Go.strings_TrimPrefix b "/".

(** A dynamically linked executable with sections [""], [.text], [.bss]. *)
Definition exe (syms : list Elf.Symbol) : Elf.File :=
  Elf.mkFile Elf.ET_EXEC [6%N; Elf.PT_INTERP; 1%N] [""; ".text"; ".bss"]
             (syms, None) (fun _ => ([], None)).

(** A world with one binary and no library directories. *)
Definition world (o : string + Elf.File) (b : string + Buildinfo.BuildInfo) : World :=
  mkWorld (fun _ => o) (fun _ => b) join
          (fun _ => inl "no such file or directory")
          (fun _ => inl "no such file or directory")
          (fun _ _ _ => Os.mkCmdResult "" "" Os.RunNil).

Definition good_symbols : list Elf.Symbol :=
  [ Elf.mkSymbol "crypto/sha256.block" 1;
    Elf.mkSymbol "_cgo_init" 1;
    Elf.mkSymbol dlopen 1 ].

Definition setting := Buildinfo.mkSetting.

(** The file cannot be read. *)
Definition w_io_error : World :=
  world (inl "read /usr/bin/tool: input/output error") (inl "unused").

(** The runtime version does not parse; the forbidden tag is set and the
    experiment flags lack the required token. *)
Definition bi_devel : Buildinfo.BuildInfo :=
  Buildinfo.mkBuildInfo "devel +0a1b2c3"
    [ setting "-tags" "netgo,no_openssl";
      setting "CGO_ENABLED" "1";
      setting "GOEXPERIMENT" "boringcrypto" ].
Definition w_devel : World := world (inr (exe good_symbols)) (inr bi_devel).

(** Everything in order, but no [GOEXPERIMENT] setting at all. *)
Definition bi_no_experiment : Buildinfo.BuildInfo :=
  Buildinfo.mkBuildInfo "go1.23.0"
    [ setting "-tags" "netgo"; setting "CGO_ENABLED" "1" ].
Definition w_no_experiment : World :=
  world (inr (exe good_symbols)) (inr bi_no_experiment).

(** Three violations: cgo disabled, forbidden tag, [dlopen] missing. *)
Definition bi_three : Buildinfo.BuildInfo :=
  Buildinfo.mkBuildInfo "go1.23.0"
    [ setting "-tags" "netgo,no_openssl";
      setting "CGO_ENABLED" "0";
      setting "GOEXPERIMENT" "strictfipsruntime" ].
Definition w_three : World :=
  world (inr (exe [ Elf.mkSymbol "crypto/sha256.block" 1;
                    Elf.mkSymbol "_cgo_init" 1 ]))
        (inr bi_three).

(** No crypto symbol outside [.bss]; statically linked. *)
Definition exe_no_crypto : Elf.File :=
  Elf.mkFile Elf.ET_EXEC [1%N] [""; ".text"; ".bss"]
             ([ Elf.mkSymbol "main.main" 1;
                Elf.mkSymbol "crypto/rand.batched" 2;
                Elf.mkSymbol "crypto_abs" 0xfff1 ], None)
             (fun _ => ([], None)).
Definition w_no_crypto : World := world (inr exe_no_crypto) (inl "not a Go executable").


(** An image with a reserved and an out-of-range section index. *)
Definition info_odd : ElfInfo :=
  mkElfInfo true false [""; ".text"; ".bss"]
            [ Elf.mkSymbol "crypto_abs" 0xfff1; Elf.mkSymbol "_cgo_init" 7 ].

(** An image with 0xfff2 sections, so that the reserved index 0xfff1 of
    absolute symbols is below the number of sections. *)
Definition info_many : ElfInfo :=
  mkElfInfo true false (repeat ".text" (N.to_nat 0xfff2)) [].

(** Symbols with the undefined index: imported names. *)
Definition undefined_crypto : Elf.Symbol := Elf.mkSymbol "crypto_box_keypair" Elf.SHN_UNDEF.
Definition undefined_cgo_init : Elf.Symbol := Elf.mkSymbol "_cgo_init" Elf.SHN_UNDEF.
Definition undefined_dlopen : Elf.Symbol := Elf.mkSymbol dlopen Elf.SHN_UNDEF.

(** A root whose [/usr/lib64] holds a libcrypto without indicators; the
    other library directories are missing, a symlink, or unreadable. *)
Definition regular : N := 0.
Definition w_lib : World :=
  mkWorld (fun _ => inl "unused") (fun _ => inl "unused") join
          (fun p => if String.eqb p "/mnt/lib64" then inr Os.ModeSymlink
                    else if String.eqb p "/mnt/usr/lib64" then inr Os.ModeDir
                    else if String.eqb p "/mnt/lib" then inr Os.ModeDir
                    else inl "no such file or directory")
          (fun p => if String.eqb p "/mnt/usr/lib64"
                    then inr [ Os.mkDirEntry "libc.so.6" regular;
                               Os.mkDirEntry "libcrypto.so" Os.ModeSymlink;
                               Os.mkDirEntry "libcrypto.so.3" regular ]
                    else inl "permission denied")
          (fun _ _ _ => Os.mkCmdResult "0000 T EVP_sha256" "" Os.RunNil).

(** A root where every library directory is missing. *)
Definition w_no_dirs : World := world (inl "unused") (inl "unused").

End Examples.

(* ------------------------------------------------------------------ *)
(** ** internal/scanner *)

Module Scanner.

(** One call of the function [filepath.WalkDir] is given: either with an
    error (the root cannot be examined, a directory cannot be listed), or
    with a directory entry, of which the function may ask [Info] (an error
    or the file mode). *)
Inductive Visit : Type :=
| VisitError (path err : string)
| VisitEntry (path : string) (file : Os.DirEntry) (info : string + N).

(** [FileMode.Perm]: the permission bits, [mode & 0o777]. *)
Definition Perm (mode : N) : N := N.land mode 0x1ff.

Definition stripMountPath (mountPath path : string) : string :=
  Go.strings_TrimPrefix path mountPath.

(** The function literal handed to [WalkDir].  It returns the error it
    returns to [WalkDir] and the new value of the captured [allValid]. *)
Definition visit (w : World) (rootPath : string) (allValid : bool) (v : Visit)
  : M (option string * bool) :=
  match v with
  | VisitError _ err => ret (Some err, allValid)
  | VisitEntry path file info =>
      if Os.IsDir file then ret (None, allValid)
      else if negb (Os.IsRegular (Os.EntryType file)) then ret (None, allValid)
      else
        match info with
        | inl err => ret (Some err, allValid)
        | inr mode =>
            (* 0o111 *)
            if (N.land (Perm mode) 0x49 =? 0)%N then ret (None, allValid)
            else
              let innerPath := stripMountPath rootPath path in
              valid <- Validation.ValidateBinary w rootPath innerPath ;;
              if negb valid then ret (None, false) else ret (None, allValid)
        end
  end.

(** [filepath.WalkDir] over the calls it makes as long as the function
    returns [nil]; the first error the function returns ends the walk and is
    the walk's error.  (The function above never returns [SkipDir] or
    [SkipAll].) *)
Fixpoint WalkDir (w : World) (rootPath : string) (visits : list Visit)
         (allValid : bool) : M (option string * bool) :=
  match visits with
  | [] => ret (None, allValid)
  | v :: rest =>
      r <- visit w rootPath allValid v ;;
      match fst r with
      | Some err => ret (Some err, snd r)
      | None => WalkDir w rootPath rest (snd r)
      end
  end.

(** [walk rootPath] lists the calls [WalkDir] makes from [rootPath]. *)
Definition ScanDirTree (w : World) (walk : string -> list Visit)
           (rootPath : string) : M bool :=
  r <- WalkDir w rootPath (walk rootPath) true ;;
  match fst r with
  | Some _ => ret false
  | None => ret (snd r)
  end.

End Scanner.

(* ------------------------------------------------------------------ *)
(** ** Further notions and examples *)

Module ScanSpec.

Import Elfinfo Validation Spec Scanner.

(** The image [ReadFile] builds for an executable. *)
Definition image (exe : Elf.File) : ElfInfo :=
  mkElfInfo true (isStatic exe) (getSectionNames exe) (fst (Elf.Symbols exe)).

(** The errors one library adds in [ValidateOpenSSL]. *)
Definition lib_errors (w : World) (rootPath lib : string) : list error :=
  match Executor.Execute w "" "nm" ["-D"; filepath_Join w rootPath lib] with
  | (_, _, _, Some err) => [ErrorsNew err]
  | (stdout, stderr, rc, None) =>
      if negb (rc =? 0)%Z then [ErrorsNew stderr]
      else if negb (hasFIPS stdout) then [err_not_fips_capable lib]
      else []
  end.

(** What [ValidateOpenSSL] collects. *)
Definition scan_errors (w : World) (rootPath : string) : list error :=
  match findCryptoLibs w rootPath with
  | [] => [err_libcrypto_not_found]
  | libs => flat_map (lib_errors w rootPath) libs
  end.

(** [nm -D] ran on the library, exited with code 0, and its output shows
    one of the indicator symbols. *)
Definition exports_indicator (w : World) (rootPath lib : string) : Prop :=
  exists stdout stderr,
    Executor.Execute w "" "nm" ["-D"; filepath_Join w rootPath lib]
    = (stdout, stderr, 0%Z, None)
    /\ hasFIPS stdout = true.

(** The path a visit hands to [ValidateBinary]: the visit is of a regular
    file, not a directory, whose mode has an execute bit. *)
Definition validated (rootPath : string) (v : Visit) : option string :=
  match v with
  | VisitEntry path file (inr mode) =>
      if negb (Os.IsDir file) && Os.IsRegular (Os.EntryType file)
         && negb (N.land (Perm mode) 0x49 =? 0)%N
      then Some (stripMountPath rootPath path)
      else None
  | _ => None
  end.

(** The paths of a walk that reach [ValidateBinary], in order. *)
Definition validated_paths (rootPath : string) (visits : list Visit) : list string :=
  flat_map (fun v => match validated rootPath v with
                     | Some p => [p]
                     | None => []
                     end) visits.

(** What [ValidateBinary] returns for a path ([false] stands in for a
    panic, which does not occur). *)
Definition valid (w : World) (rootPath path : string) : bool :=
  match snd (ValidateBinary w rootPath path) with
  | Some b => b
  | None => false
  end.

(** The visit makes the function return an error to [WalkDir]. *)
Definition fails (v : Visit) : bool :=
  match v with
  | VisitError _ _ => true
  | VisitEntry _ file (inl _) =>
      negb (Os.IsDir file) && Os.IsRegular (Os.EntryType file)
  | VisitEntry _ _ (inr _) => false
  end.

(** The visit does not end the walk. *)
Definition clean (v : Visit) : bool := negb (fails v).

(** A string without the byte [c]. *)
Fixpoint free_of (c : ascii) (s : string) : bool :=
  match s with
  | EmptyString => true
  | String a s' => negb (Ascii.eqb a c) && free_of c s'
  end.

(** A tree with a directory, a script without execute bit, a device, and
    two executables. *)
Definition tree_visits : list Visit :=
  [ VisitEntry "/mnt" (Os.mkDirEntry "mnt" Os.ModeDir) (inr (N.lor Os.ModeDir 0x1ed));
    VisitEntry "/mnt/README" (Os.mkDirEntry "README" 0) (inr 0x1a4%N);
    VisitEntry "/mnt/null" (Os.mkDirEntry "null" Os.ModeCharDevice)
               (inr (N.lor Os.ModeCharDevice 0x1b6));
    VisitEntry "/mnt/tool" (Os.mkDirEntry "tool" 0) (inr 0x1ed%N) ].

Definition tree_denied : list Visit :=
  [ VisitEntry "/mnt" (Os.mkDirEntry "mnt" Os.ModeDir) (inr (N.lor Os.ModeDir 0x1ed));
    VisitError "/mnt/private" "open /mnt/private: permission denied";
    VisitEntry "/mnt/tool" (Os.mkDirEntry "tool" 0) (inr 0x1ed%N) ].

(** A shared library: [ET_DYN] whose [DT_FLAGS_1] lacks the PIE bit. *)
Definition shared_object : Elf.File :=
  Elf.mkFile Elf.ET_DYN [1%N] [""; ".text"; ".bss"]
             ([Elf.mkSymbol "crypto_init" 1], None)
             (fun _ => ([1%N], None)).

(** A stripped executable: [Symbols] fails with the no-symbols error. *)
Definition stripped : Elf.File :=
  Elf.mkFile Elf.ET_EXEC [Elf.PT_INTERP] [""; ".text"; ".bss"]
             ([], Some "no symbol section")
             (fun _ => ([], None)).

(** A world whose [nm] fails to start. *)
Definition w_no_nm : World :=
  mkWorld (fun _ => inl "unused") (fun _ => inl "unused") Examples.join
          (fun _ => inr Os.ModeDir)
          (fun p => if String.eqb p "/mnt/usr/lib64"
                    then inr [ Os.mkDirEntry "libcrypto.so.3" 0 ]
                    else inr [])
          (fun _ _ _ => Os.mkCmdResult "" ""
                          (Os.RunOtherError "exec: nm: executable file not found")).

(** A world with a FIPS-capable libcrypto. *)
Definition w_fips : World :=
  mkWorld (fun _ => inl "unused") (fun _ => inl "unused") Examples.join
          (fun _ => inr Os.ModeDir)
          (fun p => if String.eqb p "/mnt/usr/lib64"
                    then inr [ Os.mkDirEntry "libcrypto.so.3" 0 ]
                    else inr [])
          (fun _ _ _ => Os.mkCmdResult "0000 T FIPS_mode_set" "" Os.RunNil).

End ScanSpec.

(* ------------------------------------------------------------------ *)
(** ** Laws of the effect monad *)

Lemma bind_ret {A B} (a : A) (f : A -> M B) : bind (ret a) f = f a.
Proof. unfold bind, ret; simpl. now destruct (f a). Qed.

Lemma bind_panic {A B} (f : A -> M B) : bind panic f = panic.
Proof. reflexivity. Qed.

Lemma bind_emit {B} (e : event) (k : M B) :
  bind (emit e) (fun _ => k) = (e :: fst k, snd k).
Proof. reflexivity. Qed.

Lemma bind_value {A B} (log : list event) (a : A) (f : A -> M B) :
  bind (log, Some a) f = (log ++ fst (f a), snd (f a)).
Proof. reflexivity. Qed.

Lemma reasons_app (l1 l2 : list event) :
  reasons (l1 ++ l2) = reasons l1 ++ reasons l2.
Proof.
  induction l1 as [|e l1 IH]; simpl; [reflexivity|].
  destruct e; simpl; rewrite IH; reflexivity.
Qed.

Lemma print_errors_value (errs : list error) : snd (print_errors errs) = Some tt.
Proof. induction errs as [|e errs IH]; simpl; [reflexivity | exact IH]. Qed.

Lemma print_errors_log (errs : list error) :
  fst (print_errors errs) = map PrintError errs.
Proof.
  induction errs as [|e errs IH]; simpl; [reflexivity|].
  now rewrite IH.
Qed.

Lemma reasons_map_PrintError (errs : list error) :
  reasons (map PrintError errs) = errs.
Proof. induction errs as [|e errs IH]; simpl; congruence. Qed.

Module ValidationFacts.

Import Elfinfo Validation Spec.

(** *** The common end *)

Lemma report_empty : report [] = ([PrintSuccess "success\n"], Some true).
Proof. reflexivity. Qed.

Lemma report_nonempty (e : error) (errs : list error) :
  report (e :: errs)
  = (PrintFailure "failed\n" :: map PrintError (e :: errs), Some false).
Proof.
  unfold report. cbn [List.length Nat.ltb Nat.leb].
  rewrite bind_emit.
  unfold bind. rewrite print_errors_value, print_errors_log.
  cbn [fst snd ret]. now rewrite app_nil_r.
Qed.

Lemma report_value (errs : list error) :
  snd (report errs) = Some (Nat.eqb (List.length errs) 0).
Proof.
  destruct errs as [|e errs]; [reflexivity|].
  now rewrite report_nonempty.
Qed.

Lemma report_reasons (errs : list error) : reasons (fst (report errs)) = errs.
Proof.
  destruct errs as [|e errs]; [reflexivity|].
  rewrite report_nonempty. cbn [fst reasons].
  apply (reasons_map_PrintError (e :: errs)).
Qed.

(** *** Symbol-to-section correlation *)

Lemma index_owner (info : ElfInfo) (sym : Elf.Symbol) :
  skipped info sym = false ->
  exists section,
    owner info sym = Some section
    /\ index (Sections info) (Elf.Section sym) = ret section.
Proof.
  intros Hs. unfold owner, index. rewrite Hs.
  unfold skipped in Hs. apply orb_false_elim in Hs as [_ Hlen].
  apply N.leb_gt in Hlen.
  destruct (nth_error (Sections info) (N.to_nat (Elf.Section sym))) as [s|] eqn:E.
  - now exists s.
  - apply nth_error_None in E. lia.
Qed.

Lemma owner_skipped (info : ElfInfo) (sym : Elf.Symbol) :
  skipped info sym = true -> owner info sym = None.
Proof. intros H. unfold owner. now rewrite H. Qed.

Lemma outside_bss_skipped (info : ElfInfo) (sym : Elf.Symbol) :
  skipped info sym = true -> outside_bss info sym = false.
Proof. intros H. unfold outside_bss. now rewrite owner_skipped. Qed.

Lemma skipped_with_symbols info syms sym :
  skipped (with_symbols info syms) sym = skipped info sym.
Proof. reflexivity. Qed.

(** The guard is true exactly on reserved and out-of-range indices. *)
Lemma skipped_iff (info : ElfInfo) (sym : Elf.Symbol) :
  skipped info sym = true
  <-> (Elf.SHN_LORESERVE <= Elf.Section sym)%N
      \/ (N.of_nat (List.length (Sections info)) <= Elf.Section sym)%N.
Proof.
  unfold skipped. rewrite orb_true_iff, !N.leb_le. tauto.
Qed.

(** *** The three symbol loops, as plain functions *)

Lemma found_loop_spec (info : ElfInfo) (rs : string) (syms : list Elf.Symbol) :
  found_loop info rs syms = ret (existsb (required_symbol info rs) syms).
Proof.
  induction syms as [|sym rest IH]; [reflexivity|].
  cbn [found_loop existsb]. unfold required_symbol at 1.
  destruct (skipped info sym) eqn:Hs.
  - rewrite (outside_bss_skipped _ _ Hs), andb_false_r. exact IH.
  - destruct (index_owner _ _ Hs) as (section & Ho & Hi).
    rewrite Hi, bind_ret. unfold outside_bss. rewrite Ho.
    destruct (String.eqb (Elf.Name sym) rs
              && negb (Go.slices_Contains [".bss"] section)); [reflexivity|].
    exact IH.
Qed.

Lemma validateCgoInit_loop_spec (info : ElfInfo) (syms : list Elf.Symbol) :
  validateCgoInit_loop info syms
  = ret (if existsb (cgo_init_symbol info) syms then [] else [err_missing_cgo_init]).
Proof.
  induction syms as [|sym rest IH]; [reflexivity|].
  cbn [validateCgoInit_loop existsb]. unfold cgo_init_symbol at 1.
  destruct (skipped info sym) eqn:Hs.
  - rewrite (outside_bss_skipped _ _ Hs), andb_false_r. exact IH.
  - destruct (index_owner _ _ Hs) as (section & Ho & Hi).
    rewrite Hi, bind_ret. unfold outside_bss. rewrite Ho.
    destruct ((String.eqb (Elf.Name sym) "_cgo_init"
               || String.eqb (Elf.Name sym) "_cgo_topofstack")
              && negb (Go.slices_Contains [".bss"] section)); [reflexivity|].
    exact IH.
Qed.

Lemma validateCgoInit_spec (info : ElfInfo) :
  validateCgoInit info = ret (cgoInit_errors info).
Proof. apply validateCgoInit_loop_spec. Qed.

Lemma usesCrypto_loop_value (info : ElfInfo) (syms : list Elf.Symbol) :
  snd (usesCrypto_loop info syms) = Some (existsb (crypto_symbol info) syms)
  /\ reasons (fst (usesCrypto_loop info syms)) = [].
Proof.
  induction syms as [|sym rest IH]; [now split|].
  cbn [usesCrypto_loop existsb]. unfold crypto_symbol at 1.
  destruct (skipped info sym) eqn:Hs.
  - rewrite (outside_bss_skipped _ _ Hs), andb_false_r. exact IH.
  - destruct (index_owner _ _ Hs) as (section & Ho & Hi).
    rewrite Hi, bind_ret. unfold outside_bss. rewrite Ho.
    destruct (Go.strings_Contains (Elf.Name sym) "crypto"
              && negb (Go.slices_Contains [".bss"] section)); [now split|].
    exact IH.
Qed.

Lemma usesCrypto_loop_none (info : ElfInfo) (syms : list Elf.Symbol) :
  existsb (crypto_symbol info) syms = false ->
  usesCrypto_loop info syms = ret false.
Proof.
  induction syms as [|sym rest IH]; [reflexivity|].
  cbn [usesCrypto_loop existsb]. unfold crypto_symbol at 1.
  intros H. apply orb_false_elim in H as [H1 H2].
  destruct (skipped info sym) eqn:Hs; [auto|].
  destruct (index_owner _ _ Hs) as (section & Ho & Hi).
  rewrite Hi, bind_ret. unfold outside_bss in H1. rewrite Ho in H1.
  rewrite H1. auto.
Qed.

Lemma validateGoSymbols_loop_spec (info : ElfInfo) (required : list string)
      (errs : list error) :
  validateGoSymbols_loop info required errs
  = ret (errs ++ missing_symbols info required).
Proof.
  revert errs. induction required as [|rs rest IH]; intros errs.
  - cbn. now rewrite app_nil_r.
  - cbn [validateGoSymbols_loop]. rewrite found_loop_spec, bind_ret.
    unfold missing_symbols in *. cbn [filter].
    destruct (existsb (required_symbol info rs) (Symbols info)); cbn [negb].
    + apply IH.
    + rewrite IH. cbn [map]. now rewrite <- app_assoc.
Qed.

Lemma validateGoSymbols_spec (info : ElfInfo) (goVersion : Semver.Version) :
  validateGoSymbols info goVersion = ret (goSymbols_errors info goVersion).
Proof.
  unfold validateGoSymbols, goSymbols_errors.
  destruct (Nat.eqb _ 0); [reflexivity|].
  apply validateGoSymbols_loop_spec.
Qed.

(** *** [ValidateBinary] on a crypto-using image *)

(** The Go-specific part: no panic, nothing printed but debug traces. *)
Lemma ValidateBinary_collect (w : World) (rootPath path : string) (ei : ElfInfo) :
  exists dbg,
    match buildinfo_ReadFile w (filepath_Join w rootPath path) with
    | inl err =>
        emit (Debugf "skipping further validation (not a Go binary): %v" [err]) ;;;
        ret ([] ++ validateNotStaticallyLinked ei)
    | inr bi =>
        match Semver.NewVersion (version_text bi) with
        | inl err =>
            ret (([] ++ validateNotStaticallyLinked ei)
                   ++ [err_parse_go_version (Buildinfo.GoVersion bi) err])
        | inr goVersion =>
            e <- validateCgoInit ei ;;
            e0 <- validateGoSymbols ei goVersion ;;
            ret ((((([] ++ validateNotStaticallyLinked ei) ++ validateCgoEnabled bi)
                     ++ e) ++ e0) ++ validateGoTagsAndExperiment bi)
        end
    end = (dbg, Some (rule_errors w rootPath path ei))
    /\ reasons dbg = [].
Proof.
  unfold rule_errors.
  destruct (buildinfo_ReadFile w (filepath_Join w rootPath path)) as [err|bi].
  - eexists. rewrite bind_emit. cbn [fst snd ret app].
    rewrite app_nil_r. split; reflexivity.
  - destruct (Semver.NewVersion (version_text bi)) as [err|v].
    + exists []. split; reflexivity.
    + exists []. rewrite validateCgoInit_spec, bind_ret.
      rewrite validateGoSymbols_spec, bind_ret.
      cbn [app]. rewrite <- !app_assoc. split; reflexivity.
Qed.

Lemma ValidateBinary_rules (w : World) (rootPath path : string) (ei : ElfInfo) :
  ReadFile w (filepath_Join w rootPath path) = (Some ei, None) ->
  IsElf ei = true ->
  existsb (crypto_symbol ei) (Symbols ei) = true ->
  snd (ValidateBinary w rootPath path)
  = Some (Nat.eqb (List.length (rule_errors w rootPath path ei)) 0)
  /\ reasons (fst (ValidateBinary w rootPath path)) = rule_errors w rootPath path ei.
Proof.
  intros Hread Helf Hcrypto.
  unfold ValidateBinary. rewrite bind_emit, Hread.
  cbn [deref]. rewrite bind_ret, Helf. cbn [negb].
  destruct (usesCrypto_loop_value ei (Symbols ei)) as [Hv Hl].
  rewrite Hcrypto in Hv. fold (usesCrypto ei) in Hv, Hl.
  destruct (usesCrypto ei) as [dbg o]. cbn [fst snd] in Hv, Hl. subst o.
  rewrite bind_value. cbn [negb].
  destruct (ValidateBinary_collect w rootPath path ei) as (dbg2 & Hc & Hd).
  cbv zeta. cbn [app] in Hc |- *. rewrite Hc, bind_value.
  cbn [fst snd reasons]. rewrite !reasons_app, Hl, Hd, report_reasons, report_value.
  split; reflexivity.
Qed.

(** *** The other checks *)

Lemma validateCgoEnabled_loop_none (settings : list Buildinfo.BuildSetting) :
  (forall bs, In bs settings ->
              Buildinfo.Key bs = "CGO_ENABLED" -> Buildinfo.Value bs <> "1") ->
  validateCgoEnabled_loop settings = [err_not_cgo_enabled].
Proof.
  induction settings as [|bs rest IH]; intros H; [reflexivity|].
  cbn [validateCgoEnabled_loop].
  destruct (String.eqb (Buildinfo.Key bs) "CGO_ENABLED") eqn:Ek; cbn [andb].
  - apply String.eqb_eq in Ek.
    destruct (String.eqb (Buildinfo.Value bs) "1") eqn:Ev.
    + apply String.eqb_eq in Ev. exfalso. now apply (H bs (or_introl eq_refl)).
    + apply IH. intros b Hb. apply H. now right.
  - apply IH. intros b Hb. apply H. now right.
Qed.

Lemma buildTags_of_unique (settings : list Buildinfo.BuildSetting) (bs : Buildinfo.BuildSetting) :
  NoDup (map Buildinfo.Key settings) ->
  In bs settings ->
  Buildinfo.Key bs = "-tags" ->
  buildTags_of settings = Go.strings_Split (Buildinfo.Value bs) ",".
Proof.
  induction settings as [|b rest IH]; intros Hnd Hin Hk; [destruct Hin|].
  cbn [buildTags_of]. cbn [map] in Hnd. inversion Hnd as [|k ks Hnotin Hnd']; subst.
  destruct Hin as [->|Hin].
  - rewrite Hk. reflexivity.
  - destruct (String.eqb (Buildinfo.Key b) "-tags") eqn:Ek.
    + apply String.eqb_eq in Ek. exfalso. apply Hnotin.
      rewrite Ek, <- Hk. now apply in_map.
    + now apply IH.
Qed.

Lemma goexperiment_loop_ok (settings : list Buildinfo.BuildSetting) (errs : list error) :
  (forall bs, In bs settings ->
              Buildinfo.Key bs = "GOEXPERIMENT" ->
              Go.strings_Contains (Buildinfo.Value bs) "strictfipsruntime" = true) ->
  goexperiment_loop settings errs = errs.
Proof.
  revert errs. induction settings as [|bs rest IH]; intros errs H; [reflexivity|].
  cbn [goexperiment_loop].
  destruct (String.eqb (Buildinfo.Key bs) "GOEXPERIMENT") eqn:Ek; cbn [andb].
  - apply String.eqb_eq in Ek.
    rewrite (H bs (or_introl eq_refl) Ek). cbn [negb].
    apply IH. intros b Hb. apply H. now right.
  - apply IH. intros b Hb. apply H. now right.
Qed.

Lemma slices_Contains_In (xs : list string) (x : string) :
  Go.slices_Contains xs x = true <-> In x xs.
Proof.
  unfold Go.slices_Contains. rewrite existsb_exists. split.
  - intros (y & Hy & E). apply String.eqb_eq in E. now subst.
  - intros H. exists x. split; [exact H | apply String.eqb_refl].
Qed.

(** *** Symbols the guard skips do not count *)

Lemma usesCrypto_loop_skip (info : ElfInfo) (sym : Elf.Symbol)
      (pre post : list Elf.Symbol) :
  skipped info sym = true ->
  usesCrypto_loop info (pre ++ sym :: post) = usesCrypto_loop info (pre ++ post).
Proof.
  intros Hs. induction pre as [|a pre IH]; cbn [app usesCrypto_loop].
  - now rewrite Hs.
  - now rewrite IH.
Qed.

Lemma usesCrypto_loop_with_symbols (info : ElfInfo) (s syms : list Elf.Symbol) :
  usesCrypto_loop (with_symbols info s) syms = usesCrypto_loop info syms.
Proof.
  induction syms as [|a syms IH]; cbn [usesCrypto_loop]; [reflexivity|].
  rewrite IH. reflexivity.
Qed.

Lemma existsb_skip {A} (f : A -> bool) (x : A) (pre post : list A) :
  f x = false -> existsb f (pre ++ x :: post) = existsb f (pre ++ post).
Proof.
  intros H. rewrite !existsb_app. cbn [existsb]. now rewrite H.
Qed.

Lemma usesCrypto_skip (info : ElfInfo) (sym : Elf.Symbol) (pre post : list Elf.Symbol) :
  skipped info sym = true ->
  usesCrypto (with_symbols info (pre ++ sym :: post))
  = usesCrypto (with_symbols info (pre ++ post)).
Proof.
  intros Hs. unfold usesCrypto. cbn [Symbols with_symbols].
  fold (with_symbols info (pre ++ sym :: post)).
  fold (with_symbols info (pre ++ post)).
  rewrite !usesCrypto_loop_with_symbols. now apply usesCrypto_loop_skip.
Qed.

Lemma validateCgoInit_skip (info : ElfInfo) (sym : Elf.Symbol)
      (pre post : list Elf.Symbol) :
  skipped info sym = true ->
  validateCgoInit (with_symbols info (pre ++ sym :: post))
  = validateCgoInit (with_symbols info (pre ++ post)).
Proof.
  intros Hs. rewrite !validateCgoInit_spec. unfold cgoInit_errors.
  cbn [Symbols with_symbols].
  rewrite (existsb_skip (cgo_init_symbol _)); [reflexivity|].
  unfold cgo_init_symbol. rewrite outside_bss_skipped, andb_false_r; auto.
Qed.

Lemma validateGoSymbols_skip (info : ElfInfo) (sym : Elf.Symbol)
      (pre post : list Elf.Symbol) (v : Semver.Version) :
  skipped info sym = true ->
  validateGoSymbols (with_symbols info (pre ++ sym :: post)) v
  = validateGoSymbols (with_symbols info (pre ++ post)) v.
Proof.
  intros Hs. rewrite !validateGoSymbols_spec. unfold goSymbols_errors.
  destruct (Nat.eqb _ 0); [reflexivity|].
  unfold missing_symbols. cbn [Symbols with_symbols].
  do 2 f_equal. apply filter_ext. intros rs.
  rewrite (existsb_skip (required_symbol _ rs)); [reflexivity|].
  unfold required_symbol. rewrite outside_bss_skipped, andb_false_r; auto.
Qed.

(** *** The library scan *)

Lemma findCryptoLibs_entries_spec (w : World) (libPath : string)
      (entries : list Os.DirEntry) (libs : list string) :
  findCryptoLibs_entries w libPath entries libs
  = libs ++ map (fun e => filepath_Join w libPath (Os.EntryName e))
                (filter candidate entries).
Proof.
  revert libs. induction entries as [|e rest IH]; intros libs.
  - cbn. now rewrite app_nil_r.
  - cbn [findCryptoLibs_entries filter]. unfold candidate at 1.
    destruct (negb (Os.IsDir e) && Os.IsRegular (Os.EntryType e)); cbn [andb].
    + destruct (cryptoLibRegex_MatchString (Os.EntryName e)).
      * rewrite IH. cbn [map]. now rewrite <- app_assoc.
      * apply IH.
    + apply IH.
Qed.

Lemma findCryptoLibs_dirs_spec (w : World) (rootPath : string)
      (paths : list string) (libs : list string) :
  findCryptoLibs_dirs w rootPath paths libs
  = libs ++ flat_map (dir_libs w rootPath) paths.
Proof.
  revert libs. induction paths as [|p rest IH]; intros libs.
  - cbn. now rewrite app_nil_r.
  - cbn [findCryptoLibs_dirs flat_map]. unfold dir_libs at 1. cbv zeta.
    destruct (os_Lstat w (filepath_Join w rootPath p)) as [err|mode];
      [apply IH|].
    destruct (N.land mode Os.ModeSymlink =? 0)%N; cbn [negb]; [|apply IH].
    destruct (os_ReadDir w (filepath_Join w rootPath p)) as [err|entries];
      [apply IH|].
    rewrite IH, findCryptoLibs_entries_spec. now rewrite <- app_assoc.
Qed.

Lemma findCryptoLibs_spec (w : World) (rootPath : string) :
  findCryptoLibs w rootPath = flat_map (dir_libs w rootPath) libPaths.
Proof. apply (findCryptoLibs_dirs_spec w rootPath libPaths []). Qed.

Lemma dir_libs_skipped (w : World) (rootPath libPath : string) :
  dir_skipped w rootPath libPath -> dir_libs w rootPath libPath = [].
Proof.
  unfold dir_skipped, dir_libs. cbv zeta.
  intros [(err & H) | [(mode & H & Hm) | (err & H)]].
  - now rewrite H.
  - rewrite H. apply N.eqb_neq in Hm. now rewrite Hm.
  - rewrite H. destruct (os_Lstat _ _); [reflexivity|].
    now destruct (N.land _ _ =? 0)%N.
Qed.


Lemma ValidateOpenSSL_not_found (w : World) (rootPath : string) :
  findCryptoLibs w rootPath = [] ->
  ValidateOpenSSL w rootPath
  = ([ Printf "• validating libcrypto is present and FIPS-capable... " [];
       PrintFailure "failed\n";
       PrintError err_libcrypto_not_found ], Some false).
Proof.
  intros H. unfold ValidateOpenSSL. rewrite H. reflexivity.
Qed.

End ValidationFacts.

(* ------------------------------------------------------------------ *)
(** ** Properties of the validator *)

Module Properties.

Import Elfinfo Validation Spec ValidationFacts Examples.

(** C1, as the code has it: when [ReadFile] returns an error, whatever
    its message, [ValidateBinary] prints a skip line (the shell-script
    line for the bad-magic message of a [#!] file, the
    failed-to-read line otherwise) and returns [true]: the file counts
    as skipped, no reason is printed, and the error is not passed on. *)
Theorem read_error_is_skipped (w : World) (rootPath path : string)
        (p : option ElfInfo) (msg : string) :
  ReadFile w (filepath_Join w rootPath path) = (p, Some msg) ->
  ValidateBinary w rootPath path
  = ([ Printf "• validating binary %s... " [path];
       if Go.strings_HasPrefix msg "bad magic number '[35 33"
       then Printf "skipped (shell script)\n" []
       else Printf "skipped (failed to read ELF info: %v)\n" [msg] ],
     Some true).
Proof.
  intros H. unfold ValidateBinary. rewrite bind_emit, H.
  destruct (Go.strings_HasPrefix msg "bad magic number '[35 33"); reflexivity.
Qed.

Lemma read_error_is_skipped_witness :
  ReadFile w_io_error (filepath_Join w_io_error "/" "/usr/bin/tool")
  = (None, Some "read /usr/bin/tool: input/output error")
  /\ ValidateBinary w_io_error "/" "/usr/bin/tool"
     = ([ Printf "• validating binary %s... " ["/usr/bin/tool"];
          Printf "skipped (failed to read ELF info: %v)\n"
                 ["read /usr/bin/tool: input/output error"] ],
        Some true).
Proof.
  split; [reflexivity|].
  apply (read_error_is_skipped w_io_error "/" "/usr/bin/tool" None
           "read /usr/bin/tool: input/output error").
  reflexivity.
Defined.

(** C1, as stated, fails: a file that cannot be read because of an I/O
    error (not a bad-magic, non-ELF file) makes [ValidateBinary] return
    [true] with no reason printed, the very outcome of a file that
    passes. *)
Lemma read_error_counts_as_success :
  elf_Open w_io_error (filepath_Join w_io_error "/" "/usr/bin/tool")
  = inl "read /usr/bin/tool: input/output error"
  /\ Go.strings_HasPrefix "read /usr/bin/tool: input/output error"
                          "bad magic number '[35 33" = false
  /\ snd (ValidateBinary w_io_error "/" "/usr/bin/tool") = Some true
  /\ reasons (fst (ValidateBinary w_io_error "/" "/usr/bin/tool")) = [].
Proof. repeat split; reflexivity. Qed.

(** C7: a recognized binary none of whose symbols has "crypto" in its
    name and an owning section other than [.bss] is reported as skipped
    at once: [ValidateBinary] returns [true] and prints no reason,
    whatever the link type and the build information. *)
Theorem no_crypto_is_success (w : World) (rootPath path : string) (ei : ElfInfo) :
  ReadFile w (filepath_Join w rootPath path) = (Some ei, None) ->
  IsElf ei = true ->
  (forall sym section,
      In sym (Symbols ei) ->
      Go.strings_Contains (Elf.Name sym) "crypto" = true ->
      owner ei sym = Some section ->
      section = ".bss") ->
  ValidateBinary w rootPath path
  = ([ Printf "• validating binary %s... " [path];
       Printf "skipped (no crypto)\n" [] ], Some true)
  /\ reasons (fst (ValidateBinary w rootPath path)) = [].
Proof.
  intros Hread Helf Hnone.
  assert (Hex : existsb (crypto_symbol ei) (Symbols ei) = false).
  { apply not_true_is_false. intros Hex.
    apply existsb_exists in Hex as (sym & Hin & Hc).
    unfold crypto_symbol in Hc. apply andb_true_iff in Hc as [Hname Hout].
    unfold outside_bss in Hout.
    destruct (owner ei sym) as [section|] eqn:Ho; [|discriminate].
    rewrite (Hnone sym section Hin Hname Ho) in Hout. discriminate. }
  assert (E : ValidateBinary w rootPath path
              = ([ Printf "• validating binary %s... " [path];
                   Printf "skipped (no crypto)\n" [] ], Some true)).
  { unfold ValidateBinary. rewrite bind_emit, Hread.
    cbn [deref]. rewrite bind_ret, Helf. cbn [negb].
    unfold usesCrypto. rewrite (usesCrypto_loop_none _ _ Hex), bind_ret.
    reflexivity. }
  split; [exact E | now rewrite E].
Qed.

Lemma no_crypto_is_success_witness :
  ValidateBinary w_no_crypto "/" "/usr/bin/tool"
  = ([ Printf "• validating binary %s... " ["/usr/bin/tool"];
       Printf "skipped (no crypto)\n" [] ], Some true)
  /\ reasons (fst (ValidateBinary w_no_crypto "/" "/usr/bin/tool")) = [].
Proof.
  apply (no_crypto_is_success w_no_crypto "/" "/usr/bin/tool"
           (mkElfInfo true true (Elf.Sections exe_no_crypto)
                      (fst (Elf.Symbols exe_no_crypto)))).
  - reflexivity.
  - reflexivity.
  - intros sym section Hin Hname Ho. cbn in Hin.
    destruct Hin as [<-|[<-|[<-|[]]]]; vm_compute in Hname, Ho;
      try discriminate; now inversion Ho.
Defined.

(** C2, as the code has it: a symbol whose section index is at least
    [SHN_LORESERVE] (the reserved range, which holds the absolute and the
    common index) has no owning section, and in each of the three checks
    that look at section names ([usesCrypto], [validateCgoInit],
    [validateGoSymbols]) a symbol table with that symbol gives the result
    of the table without it.  The undefined index [SHN_UNDEF = 0] is not in
    that range: a symbol with it is not excluded, it is owned by section 0
    of the image. *)
Theorem reserved_symbol_excluded (info : ElfInfo) (sym : Elf.Symbol)
        (pre post : list Elf.Symbol) (v : Semver.Version) :
  ((Elf.SHN_LORESERVE <= Elf.Section sym)%N ->
   owner info sym = None
   /\ usesCrypto (with_symbols info (pre ++ sym :: post))
      = usesCrypto (with_symbols info (pre ++ post))
   /\ validateCgoInit (with_symbols info (pre ++ sym :: post))
      = validateCgoInit (with_symbols info (pre ++ post))
   /\ validateGoSymbols (with_symbols info (pre ++ sym :: post)) v
      = validateGoSymbols (with_symbols info (pre ++ post)) v)
  /\ (Elf.Section sym = Elf.SHN_UNDEF ->
      forall first rest,
        Sections info = first :: rest -> owner info sym = Some first).
Proof.
  split.
  - intros H.
    assert (Hs : skipped info sym = true) by (apply skipped_iff; now left).
    repeat split.
    + now apply owner_skipped.
    + now apply usesCrypto_skip.
    + now apply validateCgoInit_skip.
    + now apply validateGoSymbols_skip.
  - intros H first rest Hsec. unfold owner, skipped.
    rewrite H, Hsec. reflexivity.
Qed.

Lemma reserved_symbol_excluded_witness :
  (nth_error (Sections info_many) (N.to_nat 0xfff1) = Some ".text"
   /\ owner info_many (Elf.mkSymbol "crypto_abs" 0xfff1) = None
   /\ usesCrypto (with_symbols info_many
                    ([Elf.mkSymbol "main.main" 1]
                       ++ Elf.mkSymbol "crypto_abs" 0xfff1 :: []))
      = usesCrypto (with_symbols info_many ([Elf.mkSymbol "main.main" 1] ++ [])))
  /\ owner info_odd undefined_crypto = Some "".
Proof.
  split.
  - split; [vm_compute; reflexivity|].
    destruct (reserved_symbol_excluded info_many (Elf.mkSymbol "crypto_abs" 0xfff1)
                [Elf.mkSymbol "main.main" 1] []
                (Semver.mkVersion 1 23 0 "" "")) as [H _].
    destruct H as (Ho & Hu & _); [vm_compute; discriminate|].
    split; [exact Ho | exact Hu].
  - destruct (reserved_symbol_excluded info_odd undefined_crypto [] []
                (Semver.mkVersion 1 23 0 "" "")) as [_ H].
    exact (H eq_refl "" [".text"; ".bss"] eq_refl).
Defined.

(** C2, as stated, fails for undefined symbols: their section index is 0,
    below [SHN_LORESERVE] and below the number of sections, so each loop
    looks them up in section 0, whose name is empty and not [.bss].  An
    undefined symbol with "crypto" in its name makes [usesCrypto] answer
    true, an undefined [_cgo_init] satisfies [validateCgoInit], and an
    undefined required symbol satisfies [validateGoSymbols]; without the
    symbol each check answers the opposite. *)
Lemma undefined_symbol_counts :
  (Elf.Section undefined_crypto <? Elf.SHN_LORESERVE)%N = true
  /\ owner info_odd undefined_crypto = Some ""
  /\ snd (usesCrypto (with_symbols info_odd [undefined_crypto])) = Some true
  /\ snd (usesCrypto (with_symbols info_odd [])) = Some false
  /\ validateCgoInit (with_symbols info_odd [undefined_cgo_init]) = ret []
  /\ validateCgoInit (with_symbols info_odd []) = ret [err_missing_cgo_init]
  /\ validateGoSymbols (with_symbols info_odd [undefined_dlopen])
                       (Semver.mkVersion 1 23 0 "" "") = ret []
  /\ validateGoSymbols (with_symbols info_odd [])
                       (Semver.mkVersion 1 23 0 "" "")
     = ret [err_missing_symbol dlopen].
Proof. repeat split; reflexivity. Qed.

(** C3: none of the three checks ever indexes the section list out of
    range (no check panics, on any image); and a symbol whose section
    index is in the reserved range or is at least the number of sections
    has no owning section and is passed over by each check. *)
Theorem correlation_in_bounds (info : ElfInfo) (v : Semver.Version) :
  (snd (usesCrypto info) <> None
   /\ snd (validateCgoInit info) <> None
   /\ snd (validateGoSymbols info v) <> None)
  /\ forall (sym : Elf.Symbol) (pre post : list Elf.Symbol),
      (Elf.SHN_LORESERVE <= Elf.Section sym)%N
      \/ (N.of_nat (List.length (Sections info)) <= Elf.Section sym)%N ->
      owner info sym = None
      /\ usesCrypto (with_symbols info (pre ++ sym :: post))
         = usesCrypto (with_symbols info (pre ++ post))
      /\ validateCgoInit (with_symbols info (pre ++ sym :: post))
         = validateCgoInit (with_symbols info (pre ++ post))
      /\ validateGoSymbols (with_symbols info (pre ++ sym :: post)) v
         = validateGoSymbols (with_symbols info (pre ++ post)) v.
Proof.
  split.
  - repeat split.
    + unfold usesCrypto.
      destruct (usesCrypto_loop_value info (Symbols info)) as [-> _].
      discriminate.
    + rewrite validateCgoInit_spec. discriminate.
    + rewrite validateGoSymbols_spec. discriminate.
  - intros sym pre post H.
    assert (Hs : skipped info sym = true) by now apply skipped_iff.
    repeat split.
    + now apply owner_skipped.
    + now apply usesCrypto_skip.
    + now apply validateCgoInit_skip.
    + now apply validateGoSymbols_skip.
Qed.

Lemma correlation_in_bounds_witness :
  snd (validateCgoInit info_odd) <> None
  /\ owner info_odd (Elf.mkSymbol "_cgo_init" 7) = None.
Proof.
  pose proof (correlation_in_bounds info_odd (Semver.mkVersion 1 23 0 "" ""))
    as [(_ & Hinit & _) Hskip].
  split; [exact Hinit|].
  apply (Hskip (Elf.mkSymbol "_cgo_init" 7) [] []).
  right. vm_compute. discriminate.
Defined.

(** C4, as the code has it: for a crypto-using recognized binary with
    build information whose runtime version does not parse, the parse
    failure is the only Go-specific reason: the checks of the cgo flag,
    the cgo-init symbol, the required symbols, the build tags and the
    experiment flags are all left out.  The reasons are the static-link
    reason, if any, followed by the parse failure. *)
Theorem unparsable_version_skips_go_checks (w : World) (rootPath path : string)
        (ei : ElfInfo) (bi : Buildinfo.BuildInfo) (msg : string) :
  ReadFile w (filepath_Join w rootPath path) = (Some ei, None) ->
  IsElf ei = true ->
  existsb (crypto_symbol ei) (Symbols ei) = true ->
  buildinfo_ReadFile w (filepath_Join w rootPath path) = inr bi ->
  Semver.NewVersion (version_text bi) = inl msg ->
  snd (ValidateBinary w rootPath path) = Some false
  /\ reasons (fst (ValidateBinary w rootPath path))
     = validateNotStaticallyLinked ei
       ++ [err_parse_go_version (Buildinfo.GoVersion bi) msg].
Proof.
  intros Hread Helf Hcrypto Hbi Hparse.
  destruct (ValidateBinary_rules w rootPath path ei Hread Helf Hcrypto) as [Hv Hr].
  unfold rule_errors in Hv, Hr. rewrite Hbi, Hparse in Hv, Hr.
  split; [|exact Hr].
  rewrite Hv, length_app. cbn [List.length].
  now rewrite Nat.add_comm.
Qed.

Lemma unparsable_version_skips_go_checks_witness :
  snd (ValidateBinary w_devel "/" "/usr/bin/tool") = Some false
  /\ reasons (fst (ValidateBinary w_devel "/" "/usr/bin/tool"))
     = [err_parse_go_version "devel +0a1b2c3" "Invalid Semantic Version"].
Proof.
  apply (unparsable_version_skips_go_checks w_devel "/" "/usr/bin/tool"
           (mkElfInfo true false [""; ".text"; ".bss"] good_symbols) bi_devel
           "Invalid Semantic Version"); reflexivity.
Defined.

(** C4, as stated, fails: the binary of [w_devel] uses crypto, carries
    build information with the unparsable version "devel", the forbidden
    tag and experiment flags without the required token; the tag and
    experiment check alone would give two reasons, yet the only reason
    printed is the parse failure. *)
Lemma tags_unchecked_without_version :
  Semver.NewVersion (version_text bi_devel) = inl "Invalid Semantic Version"
  /\ validateGoTagsAndExperiment bi_devel
     = [err_forbidden_tag "no_openssl"; err_missing_goexperiment]
  /\ reasons (fst (ValidateBinary w_devel "/" "/usr/bin/tool"))
     = [err_parse_go_version "devel +0a1b2c3" "Invalid Semantic Version"]
  /\ ~ In (err_forbidden_tag "no_openssl")
          (reasons (fst (ValidateBinary w_devel "/" "/usr/bin/tool")))
  /\ ~ In err_missing_goexperiment
          (reasons (fst (ValidateBinary w_devel "/" "/usr/bin/tool"))).
Proof.
  repeat split; try reflexivity.
  - intros [H|[]]. discriminate H.
  - intros [H|[]]. discriminate H.
Qed.

(** C5 at its failing input: the binary of [w_no_experiment] uses crypto,
    is dynamically linked, was built by Go 1.23.0 with [CGO_ENABLED=1],
    has the cgo-init and the required symbol, and has no [GOEXPERIMENT]
    setting at all; [ValidateBinary] prints success and no reason. *)
Lemma absent_experiment_setting_passes :
  buildTags_of (Buildinfo.Settings bi_no_experiment) = ["netgo"]
  /\ validateGoTagsAndExperiment bi_no_experiment = []
  /\ ValidateBinary w_no_experiment "/" "/usr/bin/tool"
     = ([ Printf "• validating binary %s... " ["/usr/bin/tool"];
          Debugf "found crypto symbol %q in section %q"
                 ["crypto/sha256.block"; ".text"];
          PrintSuccess "success\n" ], Some true).
Proof. repeat split; reflexivity. Qed.

(** A [GOEXPERIMENT] setting that is present and lacks the token does
    give the reason; the setting's absence above does not. *)
Lemma present_experiment_without_token (value : string) :
  Go.strings_Contains value "strictfipsruntime" = false ->
  validateGoTagsAndExperiment
    (Buildinfo.mkBuildInfo "go1.23.0" [Buildinfo.mkSetting "GOEXPERIMENT" value])
  = [err_missing_goexperiment].
Proof.
  intros H. unfold validateGoTagsAndExperiment.
  cbn [Buildinfo.Settings buildTags_of goexperiment_loop Buildinfo.Key
       Buildinfo.Value String.eqb].
  rewrite H. reflexivity.
Qed.

Lemma setting_unique (settings : list Buildinfo.BuildSetting)
      (a b : Buildinfo.BuildSetting) :
  NoDup (map Buildinfo.Key settings) ->
  In a settings -> In b settings ->
  Buildinfo.Key a = Buildinfo.Key b -> a = b.
Proof.
  induction settings as [|x rest IH]; intros Hnd Ha Hb Hk; [destruct Ha|].
  cbn [map] in Hnd. inversion Hnd as [|k ks Hnotin Hnd']; subst.
  destruct Ha as [->|Ha], Hb as [->|Hb].
  - reflexivity.
  - exfalso. apply Hnotin. rewrite Hk. now apply in_map.
  - exfalso. apply Hnotin. rewrite <- Hk. now apply in_map.
  - now apply IH.
Qed.

(** C6: a crypto-using, dynamically linked binary of Go 1.23.0 with the
    cgo-init symbol, whose settings (one per key) have [CGO_ENABLED=0],
    the forbidden tag among the build tags and experiment flags with the
    required token, and which lacks the required symbol of its version,
    gets exactly three reasons: cgo not enabled, the missing required
    symbol, the forbidden tag; and [ValidateBinary] returns [false]. *)
Theorem three_violations_three_reasons (w : World) (rootPath path : string)
        (ei : ElfInfo) (bi : Buildinfo.BuildInfo) (tags flags : string) :
  ReadFile w (filepath_Join w rootPath path) = (Some ei, None) ->
  IsElf ei = true ->
  IsStatic ei = false ->
  existsb (crypto_symbol ei) (Symbols ei) = true ->
  existsb (cgo_init_symbol ei) (Symbols ei) = true ->
  existsb (required_symbol ei "vendor/github.com/golang-fips/openssl/v2.dlopen")
          (Symbols ei) = false ->
  buildinfo_ReadFile w (filepath_Join w rootPath path) = inr bi ->
  Buildinfo.GoVersion bi = "go1.23.0" ->
  NoDup (map Buildinfo.Key (Buildinfo.Settings bi)) ->
  In (Buildinfo.mkSetting "CGO_ENABLED" "0") (Buildinfo.Settings bi) ->
  In (Buildinfo.mkSetting "-tags" tags) (Buildinfo.Settings bi) ->
  In "no_openssl" (Go.strings_Split tags ",") ->
  In (Buildinfo.mkSetting "GOEXPERIMENT" flags) (Buildinfo.Settings bi) ->
  Go.strings_Contains flags "strictfipsruntime" = true ->
  snd (ValidateBinary w rootPath path) = Some false
  /\ reasons (fst (ValidateBinary w rootPath path))
     = [ err_not_cgo_enabled;
         err_missing_symbol "vendor/github.com/golang-fips/openssl/v2.dlopen";
         err_forbidden_tag "no_openssl" ]
  /\ List.length (reasons (fst (ValidateBinary w rootPath path))) = 3.
Proof.
  intros Hread Helf Hdyn Hcrypto Hinit Hmissing Hbi Hver Hnd Hcgo Htags Hdenied
         Hexp Htoken.
  destruct (ValidateBinary_rules w rootPath path ei Hread Helf Hcrypto) as [Hv Hr].
  assert (Hparse : Semver.NewVersion (version_text bi)
                   = inr (Semver.mkVersion 1 23 0 "" "")).
  { unfold version_text. rewrite Hver. reflexivity. }
  assert (E : rule_errors w rootPath path ei
              = [ err_not_cgo_enabled;
                  err_missing_symbol "vendor/github.com/golang-fips/openssl/v2.dlopen";
                  err_forbidden_tag "no_openssl" ]).
  { unfold rule_errors. rewrite Hbi, Hparse.
    unfold validateNotStaticallyLinked. rewrite Hdyn. cbn [app].
    unfold validateCgoEnabled. rewrite validateCgoEnabled_loop_none.
    2:{ intros bs Hin Hk.
        rewrite (setting_unique _ bs _ Hnd Hin Hcgo Hk). discriminate. }
    unfold cgoInit_errors. rewrite Hinit.
    change (goSymbols_errors ei (Semver.mkVersion 1 23 0 "" ""))
      with (missing_symbols ei ["vendor/github.com/golang-fips/openssl/v2.dlopen"]).
    unfold missing_symbols. cbn [filter]. rewrite Hmissing. cbn [negb map app].
    unfold validateGoTagsAndExperiment.
    rewrite (buildTags_of_unique _ _ Hnd Htags eq_refl).
    cbn [Buildinfo.Value deniedTags deniedTags_loop].
    apply slices_Contains_In in Hdenied. rewrite Hdenied. cbn [app].
    rewrite goexperiment_loop_ok; [reflexivity|].
    intros bs Hin Hk.
    now rewrite (setting_unique _ bs _ Hnd Hin Hexp Hk). }
  rewrite Hv, Hr, E. repeat split; reflexivity.
Qed.

Lemma three_violations_three_reasons_witness :
  snd (ValidateBinary w_three "/" "/usr/bin/tool") = Some false
  /\ reasons (fst (ValidateBinary w_three "/" "/usr/bin/tool"))
     = [ err_not_cgo_enabled;
         err_missing_symbol "vendor/github.com/golang-fips/openssl/v2.dlopen";
         err_forbidden_tag "no_openssl" ]
  /\ List.length (reasons (fst (ValidateBinary w_three "/" "/usr/bin/tool"))) = 3.
Proof.
  apply (three_violations_three_reasons w_three "/" "/usr/bin/tool"
           (mkElfInfo true false [""; ".text"; ".bss"]
                      [ Elf.mkSymbol "crypto/sha256.block" 1;
                        Elf.mkSymbol "_cgo_init" 1 ])
           bi_three "netgo,no_openssl" "strictfipsruntime");
    try reflexivity.
  - cbn. repeat constructor; cbn; intuition discriminate.
  - cbn. auto.
  - cbn. auto.
  - vm_compute. auto.
  - cbn. auto.
Defined.

(** The shape of the errors each check can return. *)









(** C10: a library directory for which [Lstat] fails, which is a
    symbolic link, or which cannot be listed adds nothing to the
    libraries found and raises no error; so when all four library
    directories are such, nothing is found and [ValidateOpenSSL] returns
    [false] with the libcrypto-not-found error as its only reason. *)
Theorem unusable_lib_dirs_mean_not_found (w : World) (rootPath : string) :
  (forall libPath rest libs,
      dir_skipped w rootPath libPath ->
      findCryptoLibs_dirs w rootPath (libPath :: rest) libs
      = findCryptoLibs_dirs w rootPath rest libs)
  /\ ((forall libPath, In libPath libPaths -> dir_skipped w rootPath libPath) ->
      findCryptoLibs w rootPath = []
      /\ ValidateOpenSSL w rootPath
         = ([ Printf "• validating libcrypto is present and FIPS-capable... " [];
              PrintFailure "failed\n";
              PrintError err_libcrypto_not_found ], Some false)
      /\ reasons (fst (ValidateOpenSSL w rootPath)) = [err_libcrypto_not_found]).
Proof.
  split.
  - intros libPath rest libs Hskip.
    rewrite !findCryptoLibs_dirs_spec. cbn [flat_map].
    now rewrite (dir_libs_skipped _ _ _ Hskip).
  - intros Hall.
    assert (Hempty : findCryptoLibs w rootPath = []).
    { rewrite findCryptoLibs_spec.
      induction libPaths as [|p rest IH]; [reflexivity|].
      cbn [flat_map]. rewrite (dir_libs_skipped _ _ _ (Hall p (or_introl eq_refl))).
      apply IH. intros q Hq. apply Hall. now right. }
    split; [exact Hempty|].
    rewrite (ValidateOpenSSL_not_found _ _ Hempty). split; reflexivity.
Qed.

Lemma unusable_lib_dirs_mean_not_found_witness :
  findCryptoLibs w_no_dirs "/mnt" = []
  /\ snd (ValidateOpenSSL w_no_dirs "/mnt") = Some false
  /\ reasons (fst (ValidateOpenSSL w_no_dirs "/mnt")) = [err_libcrypto_not_found].
Proof.
  destruct (unusable_lib_dirs_mean_not_found w_no_dirs "/mnt") as [_ H].
  destruct H as (He & Hv & Hr).
  - intros libPath _. left.
    exists "no such file or directory". reflexivity.
  - split; [exact He | split; [now rewrite Hv | exact Hr]].
Defined.

End Properties.

(* ------------------------------------------------------------------ *)
(** ** Facts about the string functions *)

Module StringFacts.

Local Open Scope string_scope.

Lemma prefix_app (p r : string) : String.prefix p (p ++ r) = true.
Proof.
  induction p as [|c p IH]; cbn; [now destruct r|].
  destruct (Ascii.ascii_dec c c) as [_|n]; [exact IH | now destruct n].
Qed.

Lemma prefix_split (p s : string) :
  String.prefix p s = true -> exists r, s = p ++ r.
Proof.
  revert s. induction p as [|c p IH]; intros s H.
  - now exists s.
  - destruct s as [|d s]; cbn in H; [discriminate|].
    destruct (Ascii.ascii_dec c d) as [->|]; [|discriminate].
    destruct (IH s H) as (r & ->). now exists r.
Qed.

Lemma prefix_iff (p s : string) :
  String.prefix p s = true <-> exists r, s = p ++ r.
Proof.
  split; [apply prefix_split|]. intros (r & ->). apply prefix_app.
Qed.

Lemma substring_whole (s : string) : String.substring 0 (String.length s) s = s.
Proof. induction s as [|c s IH]; cbn; [reflexivity | now rewrite IH]. Qed.

Lemma string_length_app (a b : string) :
  String.length (a ++ b) = String.length a + String.length b.
Proof. induction a as [|c a IH]; cbn; [reflexivity | now rewrite IH]. Qed.

Lemma substring_drop (p r : string) :
  String.substring (String.length p)
                   (String.length (p ++ r) - String.length p) (p ++ r) = r.
Proof.
  rewrite string_length_app.
  replace (String.length p + String.length r - String.length p)
    with (String.length r) by lia.
  induction p as [|c p IH]; cbn [String.length String.append String.substring].
  - apply substring_whole.
  - exact IH.
Qed.

Lemma TrimPrefix_app (p r : string) : Go.strings_TrimPrefix (p ++ r) p = r.
Proof.
  unfold Go.strings_TrimPrefix. rewrite prefix_app. apply substring_drop.
Qed.

Lemma TrimPrefix_other (p s : string) :
  String.prefix p s = false -> Go.strings_TrimPrefix s p = s.
Proof. intros H. unfold Go.strings_TrimPrefix. now rewrite H. Qed.

Lemma append_assoc (a b c : string) : (a ++ b) ++ c = a ++ b ++ c.
Proof. induction a as [|x a IH]; cbn; [reflexivity | now rewrite IH]. Qed.

Lemma append_empty_r (a : string) : a ++ EmptyString = a.
Proof. induction a as [|x a IH]; cbn; [reflexivity | now rewrite IH]. Qed.

Lemma Contains_split (s sub : string) :
  Go.strings_Contains s sub = true -> exists a b, s = a ++ sub ++ b.
Proof.
  induction s as [|c s IH]; cbn [Go.strings_Contains]; intros H.
  - rewrite orb_false_r in H. apply prefix_split in H as (r & E).
    now exists EmptyString, r.
  - apply orb_true_iff in H as [H|H].
    + apply prefix_split in H as (r & E). now exists EmptyString, r.
    + destruct (IH H) as (a & b & ->). now exists (String c a), b.
Qed.

Lemma Contains_app (a sub b : string) :
  Go.strings_Contains (a ++ sub ++ b) sub = true.
Proof.
  induction a as [|c a IH].
  - cbn [String.append]. destruct (sub ++ b) eqn:E.
    + cbn. destruct sub; [reflexivity | discriminate E].
    + cbn [Go.strings_Contains]. rewrite <- E, prefix_app. reflexivity.
  - cbn [String.append Go.strings_Contains]. rewrite IH. apply orb_true_r.
Qed.

End StringFacts.

(* ------------------------------------------------------------------ *)
(** ** Facts about the ELF reader *)

Module ElfinfoFacts.

Import Elfinfo ScanSpec.

Lemma land_pow2_eq0 (f n : N) :
  N.land f (2 ^ n) = 0%N <-> N.testbit f n = false.
Proof.
  split.
  - intros H.
    assert (E : N.testbit (N.land f (2 ^ n)) n = false)
      by (rewrite H; apply N.bits_0).
    rewrite N.land_spec, N.pow2_bits_true, andb_true_r in E. exact E.
  - intros H. apply N.bits_inj. intros i.
    rewrite N.land_spec, N.bits_0, N.pow2_bits_eqb.
    destruct (N.eqb_spec n i) as [<-|]; [now rewrite H | apply andb_false_r].
Qed.

Lemma isPie_loop_true (vals : list N) :
  isPie_loop vals = true <-> exists f, In f vals /\ N.testbit f 27 = true.
Proof.
  induction vals as [|f rest IH]; cbn [isPie_loop].
  - split; [discriminate | intros (f & [] & _)].
  - change Elf.DF_1_PIE with (2 ^ 27)%N.
    destruct (N.eqb_spec (N.land f (2 ^ 27)) 0) as [E|E]; cbn [negb].
    + apply land_pow2_eq0 in E. rewrite IH. split.
      * intros (g & Hg & Hb). exists g. split; [now right | exact Hb].
      * intros (g & [<-|Hg] & Hb); [congruence | now exists g].
    + split; [intros _ | reflexivity].
      exists f. split; [now left|].
      destruct (N.testbit f 27) eqn:B; [reflexivity|].
      now apply land_pow2_eq0 in B.
Qed.

Lemma isStatic_loop_true (progs : list N) :
  isStatic_loop progs = true <-> ~ In Elf.PT_INTERP progs.
Proof.
  induction progs as [|p rest IH]; cbn [isStatic_loop In].
  - tauto.
  - destruct (N.eqb_spec p Elf.PT_INTERP) as [->|Hne].
    + split; [discriminate | intros H; exfalso; apply H; now left].
    + rewrite IH. tauto.
Qed.

Lemma ReadFile_cases (w : World) (path : string) :
  (exists err, elf_Open w path = inl err /\ ReadFile w path = (None, Some err))
  \/ (exists exe,
        elf_Open w path = inr exe
        /\ ((Elf.Type_ exe = Elf.ET_EXEC
             /\ ReadFile w path = (Some (image exe), None))
            \/ (Elf.Type_ exe <> Elf.ET_EXEC /\ Elf.Type_ exe = Elf.ET_DYN
                /\ isPie exe = (true, None)
                /\ ReadFile w path = (Some (image exe), None))
            \/ (Elf.Type_ exe <> Elf.ET_EXEC /\ Elf.Type_ exe = Elf.ET_DYN
                /\ isPie exe = (false, None)
                /\ ReadFile w path = (Some zero, None))
            \/ (Elf.Type_ exe <> Elf.ET_EXEC /\ Elf.Type_ exe = Elf.ET_DYN
                /\ (exists err, snd (isPie exe) = Some err
                                /\ ReadFile w path = (Some zero, Some err)))
            \/ (Elf.Type_ exe <> Elf.ET_EXEC /\ Elf.Type_ exe <> Elf.ET_DYN
                /\ ReadFile w path = (Some zero, None)))).
Proof.
  unfold ReadFile.
  destruct (elf_Open w path) as [err|exe]; [left; now exists err|].
  right. exists exe. split; [reflexivity|].
  destruct (N.eqb_spec (Elf.Type_ exe) Elf.ET_EXEC) as [E|E]; [now left|].
  right.
  destruct (N.eqb_spec (Elf.Type_ exe) Elf.ET_DYN) as [D|D].
  - destruct (isPie exe) as [[|] [err|]] eqn:P.
    + right; right; left. repeat split; auto. now exists err.
    + left. now repeat split.
    + right; right; left. repeat split; auto. now exists err.
    + right; left. now repeat split.
  - right; right; right. now repeat split.
Qed.

Lemma isPie_true_iff (exe : Elf.File) :
  isPie exe = (true, None)
  <-> snd (Elf.DynValue exe Elf.DT_FLAGS_1) = None
      /\ exists f, In f (fst (Elf.DynValue exe Elf.DT_FLAGS_1))
                   /\ N.testbit f 27 = true.
Proof.
  unfold isPie. rewrite <- isPie_loop_true.
  destruct (Elf.DynValue exe Elf.DT_FLAGS_1) as [vals [err|]]; cbn [fst snd].
  - split; [discriminate | intros [H _]; discriminate H].
  - split.
    + intros H. split; [reflexivity | congruence].
    + intros [_ ->]. reflexivity.
Qed.

Lemma ReadFile_pointer (w : World) (path : string) (p : option ElfInfo) :
  ReadFile w path = (p, None) -> exists info, p = Some info.
Proof.
  intros H.
  destruct (ReadFile_cases w path) as [(msg & _ & R)|(exe & _ & C)].
  - rewrite R in H. discriminate H.
  - destruct C as [(_ & R)|[(_ & _ & _ & R)|[(_ & _ & _ & R)|[(_ & _ & msg & _ & R)|(_ & _ & R)]]]];
      rewrite R in H; injection H as <-; try discriminate; eexists; reflexivity.
Qed.

End ElfinfoFacts.

(* ------------------------------------------------------------------ *)
(** ** Further properties: the ELF reader *)

Module ElfinfoProperties.

Import Elfinfo ScanSpec ElfinfoFacts.

(** X1: for a file that opens as ELF, [ReadFile] reports an executable
    image without error exactly when the file is of type [ET_EXEC], or of
    type [ET_DYN] with a readable [DT_FLAGS_1] entry one of whose values has
    bit 27 (the PIE flag) set; the image then carries the static flag, the
    section names and the symbols [Symbols] returned, read from that file. *)
Theorem ReadFile_image_iff (w : World) (path : string) (exe : Elf.File) :
  elf_Open w path = inr exe ->
  ((exists info, ReadFile w path = (Some info, None) /\ IsElf info = true)
   <-> (Elf.Type_ exe = Elf.ET_EXEC
        \/ (Elf.Type_ exe = Elf.ET_DYN
            /\ snd (Elf.DynValue exe Elf.DT_FLAGS_1) = None
            /\ exists f, In f (fst (Elf.DynValue exe Elf.DT_FLAGS_1))
                         /\ N.testbit f 27 = true)))
  /\ (forall info,
        ReadFile w path = (Some info, None) -> IsElf info = true ->
        IsStatic info = isStatic exe
        /\ Sections info = Elf.Sections exe
        /\ Symbols info = fst (Elf.Symbols exe)).
Proof.
  intros Hopen.
  destruct (ReadFile_cases w path) as [(err & E & _)|(exe' & E & H)];
    [congruence|].
  assert (exe' = exe) by congruence. subst exe'.
  destruct H as [(T & R)|[(T & D & P & R)|[(T & D & P & R)|[(T & D & err & P & R)|(T & D & R)]]]];
    rewrite R.
  - split.
    + split; [now left | intros _; now exists (image exe)].
    + intros info [= <-] _. now repeat split.
  - split.
    + split; [|intros _; now exists (image exe)].
      intros _. right. split; [exact D | now apply isPie_true_iff].
    + intros info [= <-] _. now repeat split.
  - split.
    + split.
      * intros (info & [= <-] & H). discriminate H.
      * intros [H|(_ & H)]; [contradiction|].
        apply isPie_true_iff in H. congruence.
    + intros info [= <-] H. discriminate H.
  - split.
    + split.
      * intros (info & H & _). discriminate H.
      * intros [H|(_ & H)]; [contradiction|].
        apply isPie_true_iff in H. rewrite H in P. discriminate P.
    + intros info H. discriminate H.
  - split.
    + split.
      * intros (info & [= <-] & H). discriminate H.
      * intros [H|(H & _)]; contradiction.
    + intros info [= <-] H. discriminate H.
Qed.

Lemma ReadFile_image_iff_witness :
  exists info,
    ReadFile (Examples.world (inr (Examples.exe Examples.good_symbols)) (inl "x"))
             "/usr/bin/tool" = (Some info, None)
    /\ IsElf info = true.
Proof.
  apply (ReadFile_image_iff
           (Examples.world (inr (Examples.exe Examples.good_symbols)) (inl "x"))
           "/usr/bin/tool" (Examples.exe Examples.good_symbols) eq_refl).
  left. reflexivity.
Defined.

(** X2: the two results of [ReadFile] fit together.  Without an error the
    pointer is never nil; an info returned together with an error, or
    one that is not an executable image, is the zero value: not static,
    no sections, no symbols. *)
Theorem ReadFile_result_shape (w : World) (path : string)
        (p : option ElfInfo) (err : option string) :
  ReadFile w path = (p, err) ->
  (err = None -> exists info, p = Some info)
  /\ (forall info, p = Some info -> err <> None \/ IsElf info = false ->
                   info = zero)
  /\ (p = None -> exists msg, err = Some msg /\ elf_Open w path = inl msg).
Proof.
  intros H.
  destruct (ReadFile_cases w path) as [(msg & E & R)|(exe & E & C)].
  - rewrite R in H. injection H as <- <-. repeat split.
    + discriminate.
    + discriminate.
    + intros _. now exists msg.
  - destruct C as [(T & R)|[(T & D & P & R)|[(T & D & P & R)|[(T & D & msg & P & R)|(T & D & R)]]]];
      rewrite R in H; injection H as <- <-; repeat split;
      try discriminate;
      try (intros _; eexists; reflexivity);
      try (intros info [= <-] [Hc|Hc]; solve [reflexivity | now destruct Hc | discriminate Hc]).
Qed.

Lemma ReadFile_result_shape_witness :
  exists msg,
    Some "read /usr/bin/tool: input/output error" = Some msg
    /\ elf_Open Examples.w_io_error "/usr/bin/tool" = inl msg.
Proof.
  apply (ReadFile_result_shape Examples.w_io_error "/usr/bin/tool" None
           (Some "read /usr/bin/tool: input/output error") eq_refl).
  reflexivity.
Defined.

(** X3: [isStatic] answers true exactly when no program header has type
    [PT_INTERP]. *)
Theorem isStatic_iff (exe : Elf.File) :
  isStatic exe = true <-> ~ In Elf.PT_INTERP (Elf.Progs exe).
Proof. apply isStatic_loop_true. Qed.

End ElfinfoProperties.

(* ------------------------------------------------------------------ *)
(** ** Further properties: the per-binary rules *)

Module BinaryFacts.

Import Elfinfo Validation Spec ScanSpec ValidationFacts ElfinfoFacts.

Lemma ValidateBinary_not_elf (w : World) (rootPath path : string) (ei : ElfInfo) :
  ReadFile w (filepath_Join w rootPath path) = (Some ei, None) ->
  IsElf ei = false ->
  ValidateBinary w rootPath path
  = ([ Printf "• validating binary %s... " [path];
       Printf "skipped (not an ELF executable)\n" [] ], Some true).
Proof.
  intros Hread Helf. unfold ValidateBinary. rewrite bind_emit, Hread.
  cbn [deref]. rewrite bind_ret, Helf. reflexivity.
Qed.

Lemma ValidateBinary_no_crypto (w : World) (rootPath path : string) (ei : ElfInfo) :
  ReadFile w (filepath_Join w rootPath path) = (Some ei, None) ->
  IsElf ei = true ->
  existsb (crypto_symbol ei) (Symbols ei) = false ->
  ValidateBinary w rootPath path
  = ([ Printf "• validating binary %s... " [path];
       Printf "skipped (no crypto)\n" [] ], Some true).
Proof.
  intros Hread Helf Hex. unfold ValidateBinary. rewrite bind_emit, Hread.
  cbn [deref]. rewrite bind_ret, Helf. cbn [negb].
  unfold usesCrypto. rewrite (usesCrypto_loop_none _ _ Hex), bind_ret.
  reflexivity.
Qed.

(** Either the file is skipped, or its image reaches the rules. *)
Lemma ValidateBinary_cases (w : World) (rootPath path : string) :
  (exists log, ValidateBinary w rootPath path = (log, Some true)
               /\ reasons log = [])
  \/ (exists ei, ReadFile w (filepath_Join w rootPath path) = (Some ei, None)
                 /\ IsElf ei = true
                 /\ existsb (crypto_symbol ei) (Symbols ei) = true).
Proof.
  destruct (ReadFile w (filepath_Join w rootPath path)) as [p [err|]] eqn:Hread.
  - left. unfold ValidateBinary. rewrite bind_emit, Hread.
    destruct (Go.strings_HasPrefix err "bad magic number '[35 33");
      eexists; split; reflexivity.
  - destruct (ReadFile_pointer _ _ _ Hread) as (ei & ->).
    destruct (IsElf ei) eqn:Helf.
    + destruct (existsb (crypto_symbol ei) (Symbols ei)) eqn:Hex.
      * right. now exists ei.
      * left. rewrite (ValidateBinary_no_crypto _ _ _ _ Hread Helf Hex).
        eexists; split; reflexivity.
    + left. rewrite (ValidateBinary_not_elf _ _ _ _ Hread Helf).
      eexists; split; reflexivity.
Qed.

Lemma ValidateBinary_verdict (w : World) (rootPath path : string) :
  exists b, snd (ValidateBinary w rootPath path) = Some b
            /\ (b = true <-> reasons (fst (ValidateBinary w rootPath path)) = []).
Proof.
  destruct (ValidateBinary_cases w rootPath path)
    as [(log & E & Hr)|(ei & Hread & Helf & Hex)].
  - exists true. rewrite E. cbn [fst snd]. tauto.
  - destruct (ValidateBinary_rules w rootPath path ei Hread Helf Hex) as [Hv Hr].
    eexists. split; [exact Hv|]. rewrite Hr.
    destruct (rule_errors w rootPath path ei); cbn; split; congruence.
Qed.

Lemma setting_eta (bs : Buildinfo.BuildSetting) :
  bs = Buildinfo.mkSetting (Buildinfo.Key bs) (Buildinfo.Value bs).
Proof. now destruct bs. Qed.

Lemma validateCgoEnabled_loop_found (settings : list Buildinfo.BuildSetting) :
  In (Buildinfo.mkSetting "CGO_ENABLED" "1") settings ->
  validateCgoEnabled_loop settings = [].
Proof.
  induction settings as [|bs rest IH]; intros H; [destruct H|].
  cbn [validateCgoEnabled_loop]. destruct H as [->|H]; [reflexivity|].
  destruct (_ && _); [reflexivity | now apply IH].
Qed.

Lemma validateCgoEnabled_loop_missing (settings : list Buildinfo.BuildSetting) :
  ~ In (Buildinfo.mkSetting "CGO_ENABLED" "1") settings ->
  validateCgoEnabled_loop settings = [err_not_cgo_enabled].
Proof.
  intros H. apply validateCgoEnabled_loop_none. intros bs Hin Hk Hv.
  apply H. rewrite (setting_eta bs), Hk, Hv in Hin. exact Hin.
Qed.

Lemma bss_only (section : string) :
  Go.slices_Contains [".bss"] section = true <-> section = ".bss".
Proof.
  unfold Go.slices_Contains. cbn [existsb]. rewrite orb_false_r.
  apply String.eqb_eq.
Qed.

Lemma outside_bss_iff (info : ElfInfo) (sym : Elf.Symbol) :
  outside_bss info sym = true
  <-> exists section, owner info sym = Some section /\ section <> ".bss".
Proof.
  unfold outside_bss. destruct (owner info sym) as [section|].
  - rewrite negb_true_iff, <- not_true_iff_false, bss_only. split.
    + intros H. now exists section.
    + intros (s' & [= <-] & H). exact H.
  - split; [discriminate | intros (s' & H & _); discriminate H].
Qed.

Lemma missing_symbols_nil (info : ElfInfo) (required : list string) :
  missing_symbols info required = []
  <-> forall rs, In rs required ->
                 existsb (required_symbol info rs) (Symbols info) = true.
Proof.
  unfold missing_symbols. induction required as [|rs rest IH]; cbn [filter map].
  - split; [intros _ rs [] | reflexivity].
  - destruct (existsb (required_symbol info rs) (Symbols info)) eqn:E; cbn [negb].
    + rewrite IH. split.
      * intros H r [<-|Hr]; [exact E | now apply H].
      * intros H r Hr. apply H. now right.
    + cbn [map]. split; [discriminate|].
      intros H. specialize (H rs (or_introl eq_refl)). congruence.
Qed.

Lemma goexperiment_loop_spec (settings : list Buildinfo.BuildSetting) (errs : list error) :
  goexperiment_loop settings errs
  = errs ++ map (fun _ => err_missing_goexperiment)
                (filter (fun bs =>
                           String.eqb (Buildinfo.Key bs) "GOEXPERIMENT"
                           && negb (Go.strings_Contains (Buildinfo.Value bs)
                                                        "strictfipsruntime"))
                        settings).
Proof.
  revert errs. induction settings as [|bs rest IH]; intros errs.
  - cbn. now rewrite app_nil_r.
  - cbn [goexperiment_loop filter]. destruct (_ && _).
    + rewrite IH. cbn [map]. now rewrite <- app_assoc.
    + apply IH.
Qed.

Lemma buildTags_of_first (pre post : list Buildinfo.BuildSetting) (tags : string) :
  (forall bs, In bs pre -> Buildinfo.Key bs <> "-tags") ->
  buildTags_of (pre ++ Buildinfo.mkSetting "-tags" tags :: post)
  = Go.strings_Split tags ",".
Proof.
  induction pre as [|bs pre IH]; intros H; [reflexivity|].
  cbn [app buildTags_of].
  destruct (String.eqb_spec (Buildinfo.Key bs) "-tags") as [E|_].
  - exfalso. now apply (H bs (or_introl eq_refl)).
  - apply IH. intros b Hb. apply H. now right.
Qed.

Lemma IndexByte_free (c : ascii) (s : string) :
  Go.strings_IndexByte s c = None <-> free_of c s = true.
Proof.
  induction s as [|a s IH]; cbn [Go.strings_IndexByte free_of]; [tauto|].
  destruct (Ascii.eqb a c); cbn [negb andb].
  - split; discriminate.
  - rewrite <- IH. destruct (Go.strings_IndexByte s c); cbn; split; congruence.
Qed.

Lemma IndexByte_slice_free (c : ascii) (s : string) (i : nat) :
  Go.strings_IndexByte s c = Some i -> free_of c (Go.slice_to s i) = true.
Proof.
  revert i. induction s as [|a s IH]; intros i; cbn [Go.strings_IndexByte];
    [discriminate|].
  destruct (Ascii.eqb a c) eqn:E.
  - intros [= <-]. reflexivity.
  - destruct (Go.strings_IndexByte s c) as [j|]; cbn [option_map]; [|discriminate].
    intros [= <-]. unfold Go.slice_to in *. cbn [String.substring free_of].
    rewrite E. cbn [negb andb]. now apply IH.
Qed.

Lemma IndexByte_app (c : ascii) (v rest : string) :
  free_of c v = true ->
  Go.strings_IndexByte (v ++ String c rest) c = Some (String.length v).
Proof.
  induction v as [|a v IH]; cbn [String.append Go.strings_IndexByte free_of String.length].
  - intros _. now rewrite Ascii.eqb_refl.
  - intros H. apply andb_true_iff in H as [Ha Hv].
    apply negb_true_iff in Ha. rewrite Ha, (IH Hv). reflexivity.
Qed.

Lemma slice_to_app (v r : string) : Go.slice_to (v ++ r) (String.length v) = v.
Proof.
  unfold Go.slice_to.
  induction v as [|a v IH]; cbn [String.append String.length String.substring].
  - now destruct r.
  - now rewrite IH.
Qed.

End BinaryFacts.

Module BinaryProperties.

Import Elfinfo Validation Spec ScanSpec ValidationFacts ElfinfoFacts BinaryFacts.

(** X4: [ValidateBinary] never panics, in any environment, and its result
    agrees with what it printed: it returns [true] exactly when it printed
    no reason. *)
Theorem ValidateBinary_total_and_consistent (w : World) (rootPath path : string) :
  exists b, snd (ValidateBinary w rootPath path) = Some b
            /\ (b = true <-> reasons (fst (ValidateBinary w rootPath path)) = []).
Proof. apply ValidateBinary_verdict. Qed.

(** X5: an ELF file that is not an executable image (a relocatable object,
    a core file, or an [ET_DYN] object whose dynamic flags lack the PIE bit,
    such as a plain shared library) is reported as skipped and counts as
    success, whatever its symbols and build information. *)
Theorem non_image_is_skipped (w : World) (rootPath path : string) (exe : Elf.File) :
  elf_Open w (filepath_Join w rootPath path) = inr exe ->
  Elf.Type_ exe <> Elf.ET_EXEC ->
  (Elf.Type_ exe = Elf.ET_DYN -> isPie exe = (false, None)) ->
  ValidateBinary w rootPath path
  = ([ Printf "• validating binary %s... " [path];
       Printf "skipped (not an ELF executable)\n" [] ], Some true).
Proof.
  intros Hopen Hexec Hdyn.
  apply (ValidateBinary_not_elf w rootPath path zero); [|reflexivity].
  unfold ReadFile. rewrite Hopen.
  destruct (N.eqb_spec (Elf.Type_ exe) Elf.ET_EXEC) as [E|_]; [contradiction|].
  destruct (N.eqb_spec (Elf.Type_ exe) Elf.ET_DYN) as [D|_]; [|reflexivity].
  now rewrite (Hdyn D).
Qed.

Lemma non_image_is_skipped_witness :
  ValidateBinary (Examples.world (inr shared_object) (inl "x")) "/" "/usr/lib64/libfoo.so"
  = ([ Printf "• validating binary %s... " ["/usr/lib64/libfoo.so"];
       Printf "skipped (not an ELF executable)\n" [] ], Some true).
Proof.
  apply (non_image_is_skipped (Examples.world (inr shared_object) (inl "x"))
           "/" "/usr/lib64/libfoo.so" shared_object).
  - reflexivity.
  - vm_compute. discriminate.
  - intros _. reflexivity.
Defined.

(** X6: an executable whose symbol table is empty, or cannot be read at
    all (a stripped binary: the error of [Symbols] is dropped), is
    reported as skipped for using no crypto and counts as success. *)
Theorem stripped_executable_is_skipped (w : World) (rootPath path : string)
        (exe : Elf.File) :
  elf_Open w (filepath_Join w rootPath path) = inr exe ->
  Elf.Type_ exe = Elf.ET_EXEC ->
  fst (Elf.Symbols exe) = [] ->
  ValidateBinary w rootPath path
  = ([ Printf "• validating binary %s... " [path];
       Printf "skipped (no crypto)\n" [] ], Some true).
Proof.
  intros Hopen Hexec Hsyms.
  apply (ValidateBinary_no_crypto w rootPath path (image exe)).
  - unfold ReadFile. rewrite Hopen, Hexec. reflexivity.
  - reflexivity.
  - unfold image. cbn [Symbols]. now rewrite Hsyms.
Qed.

Lemma stripped_executable_is_skipped_witness :
  ValidateBinary (Examples.world (inr stripped) (inl "x")) "/" "/usr/bin/tool"
  = ([ Printf "• validating binary %s... " ["/usr/bin/tool"];
       Printf "skipped (no crypto)\n" [] ], Some true).
Proof.
  apply (stripped_executable_is_skipped (Examples.world (inr stripped) (inl "x"))
           "/" "/usr/bin/tool" stripped); reflexivity.
Defined.

(** X7: a statically linked image that uses crypto always fails, with
    "statically linked" as its first reason, whether or not build
    information can be read and whatever it says. *)
Theorem static_crypto_binary_fails (w : World) (rootPath path : string) (ei : ElfInfo) :
  ReadFile w (filepath_Join w rootPath path) = (Some ei, None) ->
  IsElf ei = true ->
  existsb (crypto_symbol ei) (Symbols ei) = true ->
  IsStatic ei = true ->
  snd (ValidateBinary w rootPath path) = Some false
  /\ exists rest, reasons (fst (ValidateBinary w rootPath path))
                  = err_statically_linked :: rest.
Proof.
  intros Hread Helf Hex Hstatic.
  destruct (ValidateBinary_rules w rootPath path ei Hread Helf Hex) as [Hv Hr].
  unfold rule_errors, validateNotStaticallyLinked in Hv, Hr.
  rewrite Hstatic in Hv, Hr. cbn [app List.length Nat.eqb] in Hv, Hr.
  split; [exact Hv | eexists; exact Hr].
Qed.

Lemma static_crypto_binary_fails_witness :
  snd (ValidateBinary
         (Examples.world
            (inr (Elf.mkFile Elf.ET_EXEC [1%N] [""; ".text"]
                             ([Elf.mkSymbol "crypto/aes.x" 1], None)
                             (fun _ => ([], None))))
            (inl "not a Go executable")) "/" "/usr/bin/tool") = Some false.
Proof.
  apply (static_crypto_binary_fails
           (Examples.world
              (inr (Elf.mkFile Elf.ET_EXEC [1%N] [""; ".text"]
                               ([Elf.mkSymbol "crypto/aes.x" 1], None)
                               (fun _ => ([], None))))
              (inl "not a Go executable")) "/" "/usr/bin/tool"
           (mkElfInfo true true [""; ".text"] [Elf.mkSymbol "crypto/aes.x" 1]));
    reflexivity.
Defined.

(** X8: when build information cannot be read (the binary is not a Go
    binary), none of the Go rules apply: the only possible reason is the
    static-link one, so a dynamically linked image that uses crypto
    succeeds. *)
Theorem non_go_binary_rules (w : World) (rootPath path : string)
        (ei : ElfInfo) (err : string) :
  ReadFile w (filepath_Join w rootPath path) = (Some ei, None) ->
  IsElf ei = true ->
  existsb (crypto_symbol ei) (Symbols ei) = true ->
  buildinfo_ReadFile w (filepath_Join w rootPath path) = inl err ->
  snd (ValidateBinary w rootPath path) = Some (negb (IsStatic ei))
  /\ reasons (fst (ValidateBinary w rootPath path))
     = (if IsStatic ei then [err_statically_linked] else []).
Proof.
  intros Hread Helf Hex Hbi.
  destruct (ValidateBinary_rules w rootPath path ei Hread Helf Hex) as [Hv Hr].
  unfold rule_errors, validateNotStaticallyLinked in Hv, Hr.
  rewrite Hbi, app_nil_r in Hv, Hr.
  rewrite Hv, Hr. now destruct (IsStatic ei).
Qed.

Lemma non_go_binary_rules_witness :
  snd (ValidateBinary
         (Examples.world (inr (Examples.exe Examples.good_symbols))
                         (inl "not a Go executable")) "/" "/usr/bin/tool")
  = Some true.
Proof.
  apply (non_go_binary_rules
           (Examples.world (inr (Examples.exe Examples.good_symbols))
                           (inl "not a Go executable")) "/" "/usr/bin/tool"
           (mkElfInfo true false [""; ".text"; ".bss"] Examples.good_symbols)
           "not a Go executable"); reflexivity.
Defined.

(** X9: a dynamically linked image that uses crypto, whose build
    information has a parsable version covered by the requirement table,
    a setting [CGO_ENABLED=1], no forbidden tag among its build tags and no
    [GOEXPERIMENT] setting without the required token, and which has a
    cgo-init symbol and every required symbol of its version outside
    [.bss], succeeds with no reason. *)
Theorem compliant_go_binary_succeeds (w : World) (rootPath path : string)
        (ei : ElfInfo) (bi : Buildinfo.BuildInfo) (v : Semver.Version) :
  ReadFile w (filepath_Join w rootPath path) = (Some ei, None) ->
  IsElf ei = true ->
  existsb (crypto_symbol ei) (Symbols ei) = true ->
  IsStatic ei = false ->
  buildinfo_ReadFile w (filepath_Join w rootPath path) = inr bi ->
  Semver.NewVersion (version_text bi) = inr v ->
  In (Buildinfo.mkSetting "CGO_ENABLED" "1") (Buildinfo.Settings bi) ->
  existsb (cgo_init_symbol ei) (Symbols ei) = true ->
  requiredSymbols_of requiredSymbolsForGoVersions v <> [] ->
  (forall rs, In rs (requiredSymbols_of requiredSymbolsForGoVersions v) ->
              existsb (required_symbol ei rs) (Symbols ei) = true) ->
  ~ In "no_openssl" (buildTags_of (Buildinfo.Settings bi)) ->
  (forall bs, In bs (Buildinfo.Settings bi) ->
              Buildinfo.Key bs = "GOEXPERIMENT" ->
              Go.strings_Contains (Buildinfo.Value bs) "strictfipsruntime" = true) ->
  snd (ValidateBinary w rootPath path) = Some true
  /\ reasons (fst (ValidateBinary w rootPath path)) = [].
Proof.
  intros Hread Helf Hex Hdyn Hbi Hparse Hcgo Hinit Hreq Hall Htags Hexp.
  destruct (ValidateBinary_rules w rootPath path ei Hread Helf Hex) as [Hv Hr].
  assert (E : rule_errors w rootPath path ei = []).
  { unfold rule_errors. rewrite Hbi, Hparse.
    unfold validateNotStaticallyLinked. rewrite Hdyn. cbn [app].
    unfold validateCgoEnabled. rewrite (validateCgoEnabled_loop_found _ Hcgo).
    unfold cgoInit_errors. rewrite Hinit. cbn [app].
    unfold goSymbols_errors.
    destruct (requiredSymbols_of requiredSymbolsForGoVersions v) as [|r rs] eqn:R;
      [contradiction|].
    cbn [List.length Nat.eqb].
    rewrite (proj2 (missing_symbols_nil ei (r :: rs)) Hall). cbn [app].
    unfold validateGoTagsAndExperiment. cbn [deniedTags deniedTags_loop].
    destruct (Go.slices_Contains (buildTags_of (Buildinfo.Settings bi)) "no_openssl")
      eqn:C; [apply slices_Contains_In in C; contradiction|].
    now apply goexperiment_loop_ok. }
  rewrite Hv, Hr, E. split; reflexivity.
Qed.

Lemma compliant_go_binary_succeeds_witness :
  snd (ValidateBinary
         (Examples.world (inr (Examples.exe Examples.good_symbols))
            (inr (Buildinfo.mkBuildInfo "go1.24.1 X:strictfipsruntime"
                    [ Buildinfo.mkSetting "CGO_ENABLED" "1";
                      Buildinfo.mkSetting "GOEXPERIMENT" "strictfipsruntime" ])))
         "/" "/usr/bin/tool") = Some true.
Proof.
  apply (compliant_go_binary_succeeds
           (Examples.world (inr (Examples.exe Examples.good_symbols))
              (inr (Buildinfo.mkBuildInfo "go1.24.1 X:strictfipsruntime"
                      [ Buildinfo.mkSetting "CGO_ENABLED" "1";
                        Buildinfo.mkSetting "GOEXPERIMENT" "strictfipsruntime" ])))
           "/" "/usr/bin/tool"
           (mkElfInfo true false [""; ".text"; ".bss"] Examples.good_symbols)
           (Buildinfo.mkBuildInfo "go1.24.1 X:strictfipsruntime"
              [ Buildinfo.mkSetting "CGO_ENABLED" "1";
                Buildinfo.mkSetting "GOEXPERIMENT" "strictfipsruntime" ])
           (Semver.mkVersion 1 24 1 "" "")); try reflexivity.
  - cbn. auto.
  - vm_compute. discriminate.
  - intros rs [<-|[]]. reflexivity.
  - cbn. tauto.
  - intros bs [<-|[<-|[]]]; cbn; intros H; [discriminate H | reflexivity].
Defined.

(** X10: [validateCgoEnabled] accepts exactly the build information that
    has a setting with key [CGO_ENABLED] and value [1] somewhere among its
    settings; a missing key, or any other value, gives the error. *)
Theorem validateCgoEnabled_iff (bi : Buildinfo.BuildInfo) :
  (validateCgoEnabled bi = []
   <-> In (Buildinfo.mkSetting "CGO_ENABLED" "1") (Buildinfo.Settings bi))
  /\ (validateCgoEnabled bi = [] \/ validateCgoEnabled bi = [err_not_cgo_enabled]).
Proof.
  unfold validateCgoEnabled.
  destruct (in_dec (fun a b : Buildinfo.BuildSetting =>
                      ltac:(decide equality; apply string_dec))
                   (Buildinfo.mkSetting "CGO_ENABLED" "1") (Buildinfo.Settings bi))
    as [Hin|Hnot].
  - rewrite (validateCgoEnabled_loop_found _ Hin). split; [tauto | now left].
  - rewrite (validateCgoEnabled_loop_missing _ Hnot).
    split; [|now right]. split; [discriminate | contradiction].
Qed.

(** X11: [validateGoSymbols] returns no error exactly when the version is
    covered by the requirement table and each symbol the table requires for
    it is the name of some symbol owned by a section other than [.bss]. *)
Theorem validateGoSymbols_ok_iff (info : ElfInfo) (v : Semver.Version) :
  validateGoSymbols info v = ret []
  <-> requiredSymbols_of requiredSymbolsForGoVersions v <> []
      /\ forall rs, In rs (requiredSymbols_of requiredSymbolsForGoVersions v) ->
                    exists sym section,
                      In sym (Symbols info) /\ Elf.Name sym = rs
                      /\ owner info sym = Some section /\ section <> ".bss".
Proof.
  rewrite validateGoSymbols_spec. unfold goSymbols_errors.
  assert (P : forall rs,
             existsb (required_symbol info rs) (Symbols info) = true
             <-> exists sym section,
                 In sym (Symbols info) /\ Elf.Name sym = rs
                 /\ owner info sym = Some section /\ section <> ".bss").
  { intros rs. rewrite existsb_exists. split.
    - intros (sym & Hin & H). unfold required_symbol in H.
      apply andb_true_iff in H as [Hn Ho]. apply String.eqb_eq in Hn.
      apply outside_bss_iff in Ho as (section & Ho & Hb).
      now exists sym, section.
    - intros (sym & section & Hin & Hn & Ho & Hb). exists sym.
      split; [exact Hin|]. unfold required_symbol.
      rewrite Hn, String.eqb_refl. apply outside_bss_iff. now exists section. }
  destruct (requiredSymbols_of requiredSymbolsForGoVersions v) as [|r rs] eqn:R.
  - cbn. split; [discriminate | intros [H _]; now destruct H].
  - cbn [List.length Nat.eqb]. split.
    + intros H. injection H as H. split; [discriminate|].
      intros x Hx. apply P. now apply (proj1 (missing_symbols_nil info (r :: rs)) H).
    + intros [_ H]. unfold ret. do 2 f_equal.
      apply missing_symbols_nil. intros x Hx. apply P. now apply H.
Qed.

(** X12: [usesCrypto] never panics, and answers true exactly when some
    symbol has a name with "crypto" somewhere in it and is owned by a
    section other than [.bss]. *)
Theorem usesCrypto_iff (info : ElfInfo) :
  exists b,
    snd (usesCrypto info) = Some b
    /\ (b = true
        <-> exists sym section a c,
            In sym (Symbols info)
            /\ Elf.Name sym = (a ++ "crypto" ++ c)%string
            /\ owner info sym = Some section /\ section <> ".bss").
Proof.
  exists (existsb (crypto_symbol info) (Symbols info)).
  split; [apply usesCrypto_loop_value|].
  rewrite existsb_exists. split.
  - intros (sym & Hin & H). unfold crypto_symbol in H.
    apply andb_true_iff in H as [Hn Ho].
    apply StringFacts.Contains_split in Hn as (a & c & Hn).
    apply outside_bss_iff in Ho as (section & Ho & Hb).
    now exists sym, section, a, c.
  - intros (sym & section & a & c & Hin & Hn & Ho & Hb). exists sym.
    split; [exact Hin|]. unfold crypto_symbol.
    rewrite Hn, StringFacts.Contains_app. apply outside_bss_iff. now exists section.
Qed.

(** X13: the version text handed to the parser never contains a space;
    for a [GoVersion] made of [go], a version without spaces and, possibly,
    a space and a qualifier, it is that version. *)
Theorem version_text_strips (bi : Buildinfo.BuildInfo) :
  free_of " " (version_text bi) = true
  /\ forall v qualifier,
      free_of " " v = true ->
      Buildinfo.GoVersion bi = ("go" ++ v)%string
      \/ Buildinfo.GoVersion bi = ("go" ++ v ++ String " " qualifier)%string ->
      version_text bi = v.
Proof.
  split.
  - unfold version_text.
    destruct (Go.strings_IndexByte _ " ") as [i|] eqn:E.
    + now apply IndexByte_slice_free.
    + now apply IndexByte_free.
  - intros v qualifier Hfree [H|H]; unfold version_text; rewrite H.
    + rewrite StringFacts.TrimPrefix_app.
      now rewrite (proj2 (IndexByte_free " " v) Hfree).
    + rewrite StringFacts.TrimPrefix_app, (IndexByte_app _ _ _ Hfree).
      apply slice_to_app.
Qed.

Lemma version_text_strips_witness :
  version_text (Buildinfo.mkBuildInfo "go1.24.1 X:strictfipsruntime" []) = "1.24.1".
Proof.
  apply (proj2 (version_text_strips
                  (Buildinfo.mkBuildInfo "go1.24.1 X:strictfipsruntime" []))
               "1.24.1" "X:strictfipsruntime").
  - reflexivity.
  - right. reflexivity.
Defined.

(** X14: [validateGoTagsAndExperiment] returns at most one forbidden-tag
    error, present exactly when [no_openssl] is one of the build tags,
    followed by one missing-experiment error for every [GOEXPERIMENT]
    setting whose value lacks the token; none when there is no such
    setting. *)
Theorem validateGoTagsAndExperiment_shape (bi : Buildinfo.BuildInfo) :
  validateGoTagsAndExperiment bi
  = (if Go.slices_Contains (buildTags_of (Buildinfo.Settings bi)) "no_openssl"
     then [err_forbidden_tag "no_openssl"] else [])
    ++ map (fun _ => err_missing_goexperiment)
           (filter (fun bs =>
                      String.eqb (Buildinfo.Key bs) "GOEXPERIMENT"
                      && negb (Go.strings_Contains (Buildinfo.Value bs)
                                                   "strictfipsruntime"))
                   (Buildinfo.Settings bi)).
Proof.
  unfold validateGoTagsAndExperiment. rewrite goexperiment_loop_spec.
  cbn [deniedTags deniedTags_loop app].
  now destruct (Go.slices_Contains _ "no_openssl").
Qed.

(** X15: only the first [-tags] setting counts, and a tag is forbidden
    only as a whole comma-separated element: the forbidden-tag error is
    among the errors exactly when [no_openssl] is one of the pieces of the
    first [-tags] value split at commas, whatever later settings say. *)
Theorem forbidden_tag_iff (pre post : list Buildinfo.BuildSetting)
        (goVersion tags : string) :
  (forall bs, In bs pre -> Buildinfo.Key bs <> "-tags") ->
  In (err_forbidden_tag "no_openssl")
     (validateGoTagsAndExperiment
        (Buildinfo.mkBuildInfo goVersion
           (pre ++ Buildinfo.mkSetting "-tags" tags :: post)))
  <-> In "no_openssl" (Go.strings_Split tags ",").
Proof.
  intros Hpre. unfold validateGoTagsAndExperiment. cbn [Buildinfo.Settings].
  rewrite goexperiment_loop_spec, (buildTags_of_first _ _ _ Hpre).
  cbn [deniedTags deniedTags_loop app]. rewrite <- slices_Contains_In.
  destruct (Go.slices_Contains (Go.strings_Split tags ",") "no_openssl").
  - split; [reflexivity | intros _; now left].
  - split; [|discriminate]. cbn [app]. intros H.
    apply in_map_iff in H as (bs & H & _). discriminate H.
Qed.

Lemma forbidden_tag_iff_witness :
  In (err_forbidden_tag "no_openssl")
     (validateGoTagsAndExperiment
        (Buildinfo.mkBuildInfo "go1.23.0"
           ([Buildinfo.mkSetting "CGO_ENABLED" "1"]
              ++ Buildinfo.mkSetting "-tags" "netgo,no_openssl"
              :: [Buildinfo.mkSetting "-tags" "netgo"]))).
Proof.
  apply (forbidden_tag_iff [Buildinfo.mkSetting "CGO_ENABLED" "1"]
           [Buildinfo.mkSetting "-tags" "netgo"] "go1.23.0" "netgo,no_openssl").
  - intros bs [<-|[]]. cbn. discriminate.
  - cbn. auto.
Defined.

End BinaryProperties.

(* ------------------------------------------------------------------ *)
(** ** Further properties: strings, the library pattern, the library scan *)

Module LibFacts.

Import Elfinfo Validation Spec ScanSpec ValidationFacts.

Lemma split_from_nonempty (sep : string) (skip : nat) (cur s : string) :
  Go.split_from sep skip cur s <> [].
Proof.
  revert skip cur. induction s as [|a s IH]; intros skip cur; cbn [Go.split_from].
  - discriminate.
  - destruct skip; [|apply IH].
    destruct (String.prefix sep (String a s)); [discriminate | apply IH].
Qed.

Lemma concat_cons (sep x : string) (xs : list string) :
  xs <> [] -> String.concat sep (x :: xs) = (x ++ sep ++ String.concat sep xs)%string.
Proof. destruct xs; [contradiction | reflexivity]. Qed.

Lemma free_of_app (c : ascii) (a b : string) :
  free_of c (a ++ b) = free_of c a && free_of c b.
Proof.
  induction a as [|x a IH]; cbn [String.append free_of]; [reflexivity|].
  now rewrite IH, andb_assoc.
Qed.

Lemma split_byte (c : ascii) (s cur : string) :
  free_of c cur = true ->
  String.concat (String c EmptyString) (Go.split_from (String c EmptyString) 0 cur s)
  = (cur ++ s)%string
  /\ Forall (fun piece => free_of c piece = true)
            (Go.split_from (String c EmptyString) 0 cur s).
Proof.
  revert cur. induction s as [|a s IH]; intros cur Hcur; cbn [Go.split_from].
  - cbn [String.concat]. rewrite StringFacts.append_empty_r.
    split; [reflexivity | now constructor].
  - cbn [String.prefix String.length Nat.sub].
    destruct (Ascii.ascii_dec c a) as [<-|Hne].
    + replace (String.prefix EmptyString s) with true by now destruct s.
      destruct (IH EmptyString eq_refl) as [Hc Hf].
      rewrite concat_cons by apply split_from_nonempty.
      rewrite Hc. split; [reflexivity | now constructor].
    + assert (Hcur' : free_of c (cur ++ String a EmptyString) = true).
      { rewrite free_of_app, Hcur. cbn [free_of andb].
        destruct (Ascii.eqb_spec a c) as [E|_]; [now destruct Hne | reflexivity]. }
      destruct (IH _ Hcur') as [Hc Hf]. split; [|exact Hf].
      rewrite Hc, StringFacts.append_assoc. reflexivity.
Qed.

Lemma slice_from_so (r : string) : slice_from (".so" ++ r) 3 = r.
Proof. exact (StringFacts.substring_drop ".so" r). Qed.

Lemma slice_from_libcrypto (r : string) : slice_from ("libcrypto" ++ r) 9 = r.
Proof. exact (StringFacts.substring_drop "libcrypto" r). Qed.

Lemma any_so_iff (s : string) :
  any_so s = true
  <-> exists mid rest,
      s = (mid ++ ".so" ++ rest)%string
      /\ free_of "010" mid = true /\ so_tail rest = true.
Proof.
  split.
  - induction s as [|c s IH]; cbn [any_so]; intros H.
    + rewrite orb_false_r in H. apply andb_true_iff in H as [H _].
      discriminate H.
    + apply orb_true_iff in H as [H|H].
      * apply andb_true_iff in H as [Hp Ht].
        apply StringFacts.prefix_split in Hp as (r & E).
        rewrite E, slice_from_so in Ht.
        exists EmptyString, r. now repeat split.
      * apply andb_true_iff in H as [Hc Hs].
        destruct (IH Hs) as (mid & rest & -> & Hm & Ht).
        exists (String c mid), rest. repeat split; [|exact Ht].
        cbn [free_of]. now rewrite Hc, Hm.
  - intros (mid & rest & -> & Hm & Ht).
    remember (".so" ++ rest)%string as tail eqn:Etail.
    induction mid as [|c mid IH].
    + cbn [String.append]. subst tail.
      change (".so" ++ rest)%string with (String "." (String "s" (String "o" rest))).
      cbn [any_so].
      change (String "." (String "s" (String "o" rest))) with (".so" ++ rest)%string.
      rewrite StringFacts.prefix_app, slice_from_so, Ht. reflexivity.
    + cbn [free_of] in Hm. apply andb_true_iff in Hm as [Hc Hm].
      cbn [String.append any_so]. rewrite Hc, (IH Hm). apply orb_true_r.
Qed.

Lemma ValidateOpenSSL_libs_spec (w : World) (rootPath : string)
      (libs : list string) (errs : list error) :
  ValidateOpenSSL_libs w rootPath libs errs
  = errs ++ flat_map (lib_errors w rootPath) libs.
Proof.
  revert errs. induction libs as [|lib rest IH]; intros errs.
  - cbn. now rewrite app_nil_r.
  - cbn [ValidateOpenSSL_libs flat_map]. unfold lib_errors at 1.
    destruct (Executor.Execute w "" "nm" ["-D"; filepath_Join w rootPath lib])
      as [[[out errout] rc] [err|]].
    + rewrite IH. now rewrite <- app_assoc.
    + destruct (negb (rc =? 0)%Z); [rewrite IH; now rewrite <- app_assoc|].
      destruct (negb (hasFIPS out)); rewrite IH; [now rewrite <- app_assoc|].
      reflexivity.
Qed.

Lemma lib_errors_nil (w : World) (rootPath lib : string) :
  lib_errors w rootPath lib = [] <-> exports_indicator w rootPath lib.
Proof.
  unfold lib_errors, exports_indicator.
  destruct (Executor.Execute w "" "nm" ["-D"; filepath_Join w rootPath lib])
    as [[[out errout] rc] [err|]].
  - split; [discriminate | intros (a & b & H & _); discriminate H].
  - destruct (Z.eqb_spec rc 0) as [->|Hrc]; cbn [negb].
    + destruct (hasFIPS out) eqn:F; cbn [negb].
      * split; [intros _; now exists out, errout | reflexivity].
      * split; [discriminate|]. intros (a & b & [= <- <-] & H). congruence.
    + split; [discriminate|]. intros (a & b & [= _ _ H] & _). contradiction.
Qed.

Lemma lib_errors_short (w : World) (rootPath lib : string) :
  List.length (lib_errors w rootPath lib) <= 1.
Proof.
  unfold lib_errors.
  destruct (Executor.Execute w "" "nm" ["-D"; filepath_Join w rootPath lib])
    as [[[out errout] rc] [err|]]; [cbn; lia|].
  destruct (negb (rc =? 0)%Z); [cbn; lia|].
  destruct (negb (hasFIPS out)); cbn; lia.
Qed.

Lemma flat_map_nil {A B} (f : A -> list B) (l : list A) :
  flat_map f l = [] <-> forall x, In x l -> f x = [].
Proof.
  induction l as [|a l IH]; cbn [flat_map].
  - split; [intros _ x [] | reflexivity].
  - split.
    + intros H. apply app_eq_nil in H as [Ha Hl].
      intros x [<-|Hx]; [exact Ha | now apply IH].
    + intros H. rewrite (H a (or_introl eq_refl)). apply IH.
      intros x Hx. apply H. now right.
Qed.

Lemma ValidateOpenSSL_spec (w : World) (rootPath : string) :
  snd (ValidateOpenSSL w rootPath)
  = Some (Nat.eqb (List.length (scan_errors w rootPath)) 0)
  /\ reasons (fst (ValidateOpenSSL w rootPath)) = scan_errors w rootPath.
Proof.
  unfold ValidateOpenSSL, scan_errors. rewrite bind_emit. cbn [fst snd reasons].
  destruct (findCryptoLibs w rootPath) as [|lib libs].
  - split; reflexivity.
  - cbn [List.length Nat.eqb]. rewrite ValidateOpenSSL_libs_spec. cbn [app].
    rewrite report_value, report_reasons. split; reflexivity.
Qed.

End LibFacts.

Module LibProperties.

Import Elfinfo Validation Spec ScanSpec ValidationFacts LibFacts.

(** X16: the build tags compared with the deny list are the pieces of
    the first [-tags] value between its commas: joined with commas they
    give the value back, and no tag contains a comma.  Without any [-tags]
    setting there are no build tags. *)
Theorem buildTags_roundtrip (pre post : list Buildinfo.BuildSetting) (tags : string) :
  (forall bs, In bs pre -> Buildinfo.Key bs <> "-tags") ->
  String.concat "," (buildTags_of (pre ++ Buildinfo.mkSetting "-tags" tags :: post))
  = tags
  /\ Forall (fun tag => free_of "," tag = true)
            (buildTags_of (pre ++ Buildinfo.mkSetting "-tags" tags :: post))
  /\ buildTags_of pre = [].
Proof.
  intros Hpre. rewrite (BinaryFacts.buildTags_of_first _ _ _ Hpre).
  split; [|split].
  - exact (proj1 (split_byte "," tags EmptyString eq_refl)).
  - exact (proj2 (split_byte "," tags EmptyString eq_refl)).
  - induction pre as [|bs pre IH]; [reflexivity|]. cbn [buildTags_of].
    destruct (String.eqb_spec (Buildinfo.Key bs) "-tags") as [E|_].
    + exfalso. now apply (Hpre bs (or_introl eq_refl)).
    + apply IH. intros b Hb. apply Hpre. now right.
Qed.

Lemma buildTags_roundtrip_witness :
  String.concat ","
    (buildTags_of ([Buildinfo.mkSetting "CGO_ENABLED" "1"]
                     ++ Buildinfo.mkSetting "-tags" "netgo,,osusergo," :: []))
  = "netgo,,osusergo,".
Proof.
  apply (buildTags_roundtrip [Buildinfo.mkSetting "CGO_ENABLED" "1"] []
           "netgo,,osusergo,").
  intros bs [<-|[]]. cbn. discriminate.
Defined.

(** X17: the indicator test is a plain substring test on the output of
    [nm]: it succeeds exactly when one of the three names occurs somewhere
    in the output, so any longer symbol name that contains one of them
    (such as [FIPS_mode_set]) counts as well. *)
Theorem hasFIPS_iff (stdout : string) :
  hasFIPS stdout = true
  <-> exists name a b,
      In name ["FIPS_mode"; "fips_mode"; "EVP_default_properties_is_fips_enabled"]
      /\ stdout = (a ++ name ++ b)%string.
Proof.
  unfold hasFIPS, Go.bytes_Contains. rewrite !orb_true_iff. split.
  - intros [[H|H]|H]; apply StringFacts.Contains_split in H as (a & b & ->);
      eexists; exists a, b; (split; [|reflexivity]); cbn; auto.
  - intros (name & a & b & Hn & ->).
    destruct Hn as [<-|[<-|[<-|[]]]]; rewrite StringFacts.Contains_app; auto.
Qed.

(** X18: the library pattern accepts exactly the names made of
    [libcrypto], any bytes other than a line feed, [.so], and then either
    nothing or a dot followed by anything: [libcrypto.so],
    [libcrypto.so.3], [libcrypto-1.1.so.2], but not [libcrypto.sox] or
    [libcrypto.a]. *)
Theorem cryptoLibRegex_iff (name : string) :
  cryptoLibRegex_MatchString name = true
  <-> exists mid rest,
      name = ("libcrypto" ++ mid ++ ".so" ++ rest)%string
      /\ free_of "010" mid = true
      /\ (rest = EmptyString \/ exists r, rest = String "." r).
Proof.
  assert (T : forall rest, so_tail rest = true
                           <-> rest = EmptyString \/ exists r, rest = String "." r).
  { intros [|c r]; cbn [so_tail].
    - split; [now left | reflexivity].
    - split.
      + intros H. apply Ascii.eqb_eq in H. subst c. right. now exists r.
      + intros [H|(r' & [= -> _])]; [discriminate H | reflexivity]. }
  unfold cryptoLibRegex_MatchString. rewrite andb_true_iff. split.
  - intros [Hp Hs]. apply StringFacts.prefix_split in Hp as (tail & ->).
    rewrite slice_from_libcrypto in Hs.
    apply any_so_iff in Hs as (mid & rest & -> & Hm & Ht).
    exists mid, rest. repeat split; [exact Hm | now apply T].
  - intros (mid & rest & -> & Hm & Ht).
    rewrite StringFacts.prefix_app, slice_from_libcrypto.
    split; [reflexivity|]. apply any_so_iff. exists mid, rest.
    repeat split; [exact Hm | now apply T].
Qed.

(** X19: [findCryptoLibs] returns exactly the joined paths of the entries
    that are regular files, not directories, with a name the pattern
    accepts, found in a library directory that [Lstat] can examine, that is
    not a symbolic link and that can be listed; nothing else. *)
Theorem findCryptoLibs_In_iff (w : World) (rootPath lib : string) :
  In lib (findCryptoLibs w rootPath)
  <-> exists libPath mode entries e,
      In libPath libPaths
      /\ os_Lstat w (filepath_Join w rootPath libPath) = inr mode
      /\ N.land mode Os.ModeSymlink = 0%N
      /\ os_ReadDir w (filepath_Join w rootPath libPath) = inr entries
      /\ In e entries
      /\ Os.IsDir e = false
      /\ Os.IsRegular (Os.EntryType e) = true
      /\ cryptoLibRegex_MatchString (Os.EntryName e) = true
      /\ lib = filepath_Join w libPath (Os.EntryName e).
Proof.
  rewrite findCryptoLibs_spec, in_flat_map. split.
  - intros (libPath & Hp & Hin). unfold dir_libs in Hin. cbv zeta in Hin.
    destruct (os_Lstat w (filepath_Join w rootPath libPath)) as [err|mode] eqn:L;
      [destruct Hin|].
    destruct (N.eqb_spec (N.land mode Os.ModeSymlink) 0) as [Hm|_]; [|destruct Hin].
    destruct (os_ReadDir w (filepath_Join w rootPath libPath)) as [err|entries] eqn:R;
      [destruct Hin|].
    apply in_map_iff in Hin as (e & <- & He).
    apply filter_In in He as [He Hc]. unfold candidate in Hc.
    apply andb_true_iff in Hc as [Hc Hn]. apply andb_true_iff in Hc as [Hd Hr].
    apply negb_true_iff in Hd.
    exists libPath, mode, entries, e. now repeat split.
  - intros (libPath & mode & entries & e & Hp & L & Hm & R & He & Hd & Hr & Hn & ->).
    exists libPath. split; [exact Hp|]. unfold dir_libs. cbv zeta.
    rewrite L, Hm, R. cbn [N.eqb].
    apply (in_map (fun x => filepath_Join w libPath (Os.EntryName x))).
    apply filter_In. split; [exact He|]. unfold candidate.
    now rewrite Hd, Hr, Hn.
Qed.

(** X20: an entry whose type has any file-type bit set (directory,
    symbolic link, device, named pipe, socket, character device,
    irregular) is never taken as a library, whatever its name: a
    directory listing with such an entry gives the libraries of the listing
    without it.  The usual [libcrypto.so] symbolic link is passed over. *)
Theorem typed_entry_ignored (w : World) (libPath : string)
        (pre post : list Os.DirEntry) (libs : list string)
        (e : Os.DirEntry) (bit : N) :
  In bit [31; 27; 26; 25; 24; 21; 19]%N ->
  N.testbit (Os.EntryType e) bit = true ->
  findCryptoLibs_entries w libPath (pre ++ e :: post) libs
  = findCryptoLibs_entries w libPath (pre ++ post) libs.
Proof.
  intros Hbit Hset.
  assert (Hc : candidate e = false).
  { unfold candidate.
    destruct (Os.IsRegular (Os.EntryType e)) eqn:R;
      [|now rewrite andb_false_r].
    exfalso. unfold Os.IsRegular in R. apply N.eqb_eq in R.
    assert (B : N.testbit (N.land (Os.EntryType e) Os.ModeType) bit = false)
      by (rewrite R; apply N.bits_0).
    rewrite N.land_spec, Hset in B. cbn [andb] in B.
    cbn [In] in Hbit.
    destruct Hbit as [<-|[<-|[<-|[<-|[<-|[<-|[<-|[]]]]]]]]; vm_compute in B;
      discriminate B. }
  rewrite !findCryptoLibs_entries_spec, !filter_app. cbn [filter].
  now rewrite Hc.
Qed.

Lemma typed_entry_ignored_witness :
  findCryptoLibs_entries Examples.w_lib "/usr/lib64"
    ([Os.mkDirEntry "libc.so.6" 0]
       ++ Os.mkDirEntry "libcrypto.so" Os.ModeSymlink
       :: [Os.mkDirEntry "libcrypto.so.3" 0]) []
  = findCryptoLibs_entries Examples.w_lib "/usr/lib64"
      ([Os.mkDirEntry "libc.so.6" 0] ++ [Os.mkDirEntry "libcrypto.so.3" 0]) [].
Proof.
  apply (typed_entry_ignored Examples.w_lib "/usr/lib64"
           [Os.mkDirEntry "libc.so.6" 0] [Os.mkDirEntry "libcrypto.so.3" 0] []
           (Os.mkDirEntry "libcrypto.so" Os.ModeSymlink) 27).
  - cbn. auto.
  - reflexivity.
Defined.

(** X21: [ValidateOpenSSL] returns [true] exactly when at least one
    library is found and, for every library found, [nm -D] starts, exits
    with code 0, and prints one of the three indicator names. *)
Theorem ValidateOpenSSL_success_iff (w : World) (rootPath : string) :
  snd (ValidateOpenSSL w rootPath) = Some true
  <-> findCryptoLibs w rootPath <> []
      /\ forall lib, In lib (findCryptoLibs w rootPath) ->
                     exports_indicator w rootPath lib.
Proof.
  destruct (ValidateOpenSSL_spec w rootPath) as [-> _]. unfold scan_errors.
  destruct (findCryptoLibs w rootPath) as [|lib libs] eqn:E.
  - cbn. split; [discriminate | intros [H _]; now destruct H].
  - split.
    + intros [= H]. apply Nat.eqb_eq, length_zero_iff_nil in H.
      split; [discriminate|]. intros l Hl. apply lib_errors_nil.
      now apply (proj1 (flat_map_nil (lib_errors w rootPath) (lib :: libs)) H).
    + intros [_ H]. do 2 f_equal. apply Nat.eqb_eq, length_zero_iff_nil.
      apply flat_map_nil. intros l Hl. apply lib_errors_nil. now apply H.
Qed.

(** X22: [ValidateOpenSSL] never panics and returns [true] exactly when
    it printed no reason; when no library is found its reasons are exactly
    the one libcrypto-not-found error (so it returns [false]), and when
    libraries are found it prints at most one reason for each. *)
Theorem ValidateOpenSSL_total_and_consistent (w : World) (rootPath : string) :
  exists b,
    snd (ValidateOpenSSL w rootPath) = Some b
    /\ (b = true <-> reasons (fst (ValidateOpenSSL w rootPath)) = [])
    /\ (findCryptoLibs w rootPath = [] ->
        b = false
        /\ reasons (fst (ValidateOpenSSL w rootPath)) = [err_libcrypto_not_found])
    /\ (findCryptoLibs w rootPath <> [] ->
        List.length (reasons (fst (ValidateOpenSSL w rootPath)))
        <= List.length (findCryptoLibs w rootPath)).
Proof.
  destruct (ValidateOpenSSL_spec w rootPath) as [Hv Hr].
  eexists. split; [exact Hv|]. rewrite Hr. split; [|split].
  - destruct (scan_errors w rootPath); cbn; split; congruence.
  - intros H. unfold scan_errors. rewrite H. split; reflexivity.
  - intros H. unfold scan_errors.
    destruct (findCryptoLibs w rootPath) as [|lib libs]; [contradiction|].
    generalize (lib :: libs). intros l. induction l as [|x l IH]; [cbn; lia|].
    cbn [flat_map List.length]. rewrite length_app.
    pose proof (lib_errors_short w rootPath x). lia.
Qed.

Lemma ValidateOpenSSL_total_and_consistent_witness :
  reasons (fst (ValidateOpenSSL Examples.w_no_dirs "/mnt")) = [err_libcrypto_not_found].
Proof.
  destruct (ValidateOpenSSL_total_and_consistent Examples.w_no_dirs "/mnt")
    as (b & _ & _ & H & _).
  exact (proj2 (H eq_refl)).
Defined.

(** X23: a failure of the tool is a failure of the scan, reported with
    the tool's own message: when [nm] cannot be started for a library found,
    the start error is among the reasons; when it exits with a code other
    than 0, its standard error output is; in both cases the result is
    [false]. *)
Theorem nm_failure_reported (w : World) (rootPath lib : string) :
  In lib (findCryptoLibs w rootPath) ->
  (forall msg,
      Os.cmd_error (cmd_Run w "" "nm" ["-D"; filepath_Join w rootPath lib])
      = Os.RunOtherError msg ->
      snd (ValidateOpenSSL w rootPath) = Some false
      /\ In (ErrorsNew msg) (reasons (fst (ValidateOpenSSL w rootPath))))
  /\ (forall code,
        Os.cmd_error (cmd_Run w "" "nm" ["-D"; filepath_Join w rootPath lib])
        = Os.RunExitError code ->
        code <> 0%Z ->
        snd (ValidateOpenSSL w rootPath) = Some false
        /\ In (ErrorsNew
                 (Os.cmd_stderr (cmd_Run w "" "nm" ["-D"; filepath_Join w rootPath lib])))
              (reasons (fst (ValidateOpenSSL w rootPath)))).
Proof.
  intros Hin.
  assert (K : forall e, In e (lib_errors w rootPath lib) ->
                        snd (ValidateOpenSSL w rootPath) = Some false
                        /\ In e (reasons (fst (ValidateOpenSSL w rootPath)))).
  { intros e He. destruct (ValidateOpenSSL_spec w rootPath) as [Hv Hr].
    rewrite Hv, Hr. unfold scan_errors.
    destruct (findCryptoLibs w rootPath) as [|l ls]; [destruct Hin|].
    assert (Hf : In e (flat_map (lib_errors w rootPath) (l :: ls)))
      by (apply in_flat_map; now exists lib).
    split; [|exact Hf].
    destruct (flat_map (lib_errors w rootPath) (l :: ls)); [destruct Hf | reflexivity]. }
  split.
  - intros msg Hrun. apply K. unfold lib_errors, Executor.Execute.
    rewrite Hrun. now left.
  - intros code Hrun Hcode. apply K. unfold lib_errors, Executor.Execute.
    rewrite Hrun. destruct (Z.eqb_spec code 0) as [E|_]; [contradiction|].
    now left.
Qed.

Lemma nm_failure_reported_witness :
  snd (ValidateOpenSSL w_no_nm "/mnt") = Some false
  /\ In (ErrorsNew "exec: nm: executable file not found")
        (reasons (fst (ValidateOpenSSL w_no_nm "/mnt"))).
Proof.
  destruct (nm_failure_reported w_no_nm "/mnt" "/usr/lib64/libcrypto.so.3")
    as [H _].
  - vm_compute. auto.
  - exact (H "exec: nm: executable file not found" eq_refl).
Defined.

End LibProperties.

(* ------------------------------------------------------------------ *)
(** ** Further properties: the tree scan *)

Module ScannerFacts.

Import Elfinfo Validation Spec ScanSpec Scanner ValidationFacts BinaryFacts.

Lemma bind_ext {A B} (m : M A) (f g : A -> M B) :
  (forall a, f a = g a) -> bind m f = bind m g.
Proof. intros H. unfold bind. destruct (snd m); [now rewrite H | reflexivity]. Qed.

Lemma valid_iff (w : World) (rootPath path : string) :
  valid w rootPath path = true
  <-> reasons (fst (ValidateBinary w rootPath path)) = [].
Proof.
  unfold valid. destruct (ValidateBinary_verdict w rootPath path) as (b & -> & H).
  exact H.
Qed.

Lemma visit_fails (w : World) (rootPath : string) (a : bool) (v : Visit) :
  fails v = true -> exists err, visit w rootPath a v = ret (Some err, a).
Proof.
  destruct v as [path err|path file [err|mode]]; cbn [fails visit].
  - intros _. now exists err.
  - intros H. apply andb_true_iff in H as [Hd Hr]. apply negb_true_iff in Hd.
    rewrite Hd, Hr. now exists err.
  - discriminate.
Qed.

Lemma visit_skipped (w : World) (rootPath : string) (a : bool) (v : Visit) :
  fails v = false -> validated rootPath v = None ->
  visit w rootPath a v = ret (None, a).
Proof.
  destruct v as [path err|path file [err|mode]]; cbn [fails visit validated].
  - discriminate.
  - intros H _. destruct (Os.IsDir file); [reflexivity|].
    cbn [negb andb] in H. now rewrite H.
  - intros _. destruct (Os.IsDir file); [reflexivity|]. cbn [negb andb].
    destruct (Os.IsRegular (Os.EntryType file)); [|reflexivity]. cbn [negb andb].
    destruct (N.land (Perm mode) 73 =? 0)%N; [reflexivity | discriminate].
Qed.

Lemma visit_validated (w : World) (rootPath : string) (a : bool) (v : Visit)
      (p : string) :
  validated rootPath v = Some p ->
  visit w rootPath a v
  = (fst (ValidateBinary w rootPath p), Some (None, a && valid w rootPath p)).
Proof.
  destruct v as [path err|path file [err|mode]]; cbn [visit validated];
    try discriminate.
  destruct (Os.IsDir file); [discriminate|]. cbn [negb andb].
  destruct (Os.IsRegular (Os.EntryType file)); [|discriminate]. cbn [negb andb].
  destruct (N.land (Perm mode) 73 =? 0)%N; [discriminate|]. cbn [negb].
  intros [= <-]. unfold valid.
  destruct (ValidateBinary_verdict w rootPath (stripMountPath rootPath path))
    as (b & Hb & _).
  destruct (ValidateBinary w rootPath (stripMountPath rootPath path)) as [log o].
  cbn [snd] in Hb. subst o. rewrite bind_value. cbn [fst snd].
  destruct b, a; cbn; now rewrite app_nil_r.
Qed.

Lemma validated_not_fails (rootPath : string) (v : Visit) (p : string) :
  validated rootPath v = Some p -> fails v = false.
Proof.
  destruct v as [path err|path file [err|mode]]; cbn; congruence.
Qed.

Lemma WalkDir_clean (w : World) (rootPath : string) (visits : list Visit) (a : bool) :
  forallb clean visits = true ->
  WalkDir w rootPath visits a
  = (flat_map (fun p => fst (ValidateBinary w rootPath p))
              (validated_paths rootPath visits),
     Some (None, a && forallb (valid w rootPath) (validated_paths rootPath visits))).
Proof.
  revert a. induction visits as [|v rest IH]; intros a H.
  - cbn. now rewrite andb_true_r.
  - cbn [forallb] in H. apply andb_true_iff in H as [Hv Hrest].
    unfold clean in Hv. apply negb_true_iff in Hv.
    cbn [WalkDir]. unfold validated_paths. cbn [flat_map].
    fold (validated_paths rootPath rest).
    destruct (validated rootPath v) as [p|] eqn:Ev.
    + rewrite (visit_validated w rootPath a v p Ev), bind_value.
      cbn [fst snd]. rewrite (IH _ Hrest). cbn [fst snd app forallb flat_map].
      rewrite andb_assoc. reflexivity.
    + rewrite (visit_skipped w rootPath a v Hv Ev), bind_ret.
      cbn [fst snd app]. apply (IH _ Hrest).
Qed.

Lemma WalkDir_error (w : World) (rootPath : string) (pre post : list Visit)
      (v : Visit) (a : bool) :
  forallb clean pre = true ->
  fails v = true ->
  exists err,
    WalkDir w rootPath (pre ++ v :: post) a
    = (flat_map (fun p => fst (ValidateBinary w rootPath p))
                (validated_paths rootPath pre),
       Some (Some err, a && forallb (valid w rootPath) (validated_paths rootPath pre))).
Proof.
  intros Hpre Hv. destruct (visit_fails w rootPath true v Hv) as (err & _).
  revert a. induction pre as [|x pre IH]; intros a.
  - destruct (visit_fails w rootPath a v Hv) as (e & E).
    exists e. cbn [app WalkDir]. rewrite E, bind_ret. cbn. now rewrite andb_true_r.
  - cbn [forallb] in Hpre. apply andb_true_iff in Hpre as [Hx Hrest].
    unfold clean in Hx. apply negb_true_iff in Hx.
    cbn [app WalkDir]. unfold validated_paths. cbn [flat_map].
    fold (validated_paths rootPath pre).
    destruct (validated rootPath x) as [p|] eqn:Ex.
    + destruct (IH Hrest (a && valid w rootPath p)) as (e & E). exists e.
      rewrite (visit_validated w rootPath a x p Ex), bind_value.
      cbn [fst snd]. rewrite E. cbn [fst snd app forallb flat_map].
      rewrite andb_assoc. reflexivity.
    + destruct (IH Hrest a) as (e & E). exists e.
      rewrite (visit_skipped w rootPath a x Hx Ex), bind_ret.
      cbn [fst snd app]. exact E.
Qed.

Lemma first_failure (visits : list Visit) :
  forallb clean visits = false ->
  exists pre v post,
    visits = pre ++ v :: post /\ forallb clean pre = true /\ fails v = true.
Proof.
  induction visits as [|x rest IH]; cbn [forallb]; [discriminate|].
  destruct (clean x) eqn:Cx; cbn [andb].
  - intros H. destruct (IH H) as (pre & v & post & -> & Hp & Hv).
    exists (x :: pre), v, post. repeat split; [|exact Hv].
    cbn [forallb]. now rewrite Cx.
  - intros _. exists [], x, rest. repeat split.
    unfold clean in Cx. now apply negb_false_iff in Cx.
Qed.

Lemma reasons_flat_map {A} (f : A -> list event) (l : list A) :
  reasons (flat_map f l) = flat_map (fun x => reasons (f x)) l.
Proof.
  induction l as [|x l IH]; cbn [flat_map]; [reflexivity|].
  now rewrite reasons_app, IH.
Qed.

Lemma ScanDirTree_clean (w : World) (walk : string -> list Visit) (rootPath : string) :
  forallb clean (walk rootPath) = true ->
  ScanDirTree w walk rootPath
  = (flat_map (fun p => fst (ValidateBinary w rootPath p))
              (validated_paths rootPath (walk rootPath)),
     Some (forallb (valid w rootPath) (validated_paths rootPath (walk rootPath)))).
Proof.
  intros H. unfold ScanDirTree. rewrite (WalkDir_clean _ _ _ _ H), bind_value.
  cbn. now rewrite app_nil_r.
Qed.

Lemma ScanDirTree_error (w : World) (walk : string -> list Visit) (rootPath : string)
      (pre post : list Visit) (v : Visit) :
  walk rootPath = pre ++ v :: post ->
  forallb clean pre = true ->
  fails v = true ->
  ScanDirTree w walk rootPath
  = (flat_map (fun p => fst (ValidateBinary w rootPath p))
              (validated_paths rootPath pre), Some false).
Proof.
  intros E Hpre Hv. unfold ScanDirTree. rewrite E.
  destruct (WalkDir_error w rootPath pre post v true Hpre Hv) as (err & ->).
  rewrite bind_value. cbn. now rewrite app_nil_r.
Qed.

End ScannerFacts.

Module ScannerProperties.

Import Elfinfo Validation Spec ScanSpec Scanner ValidationFacts BinaryFacts ScannerFacts.

(** X24: when no visit of the walk fails, [ScanDirTree] validates exactly
    the regular, non-directory files with an execute bit, in walk order,
    each under its path with the root prefix removed, and returns the
    conjunction of their results: [true] when there is none. *)
Theorem ScanDirTree_conjunction (w : World) (walk : string -> list Visit)
        (rootPath : string) :
  (forall v, In v (walk rootPath) -> fails v = false) ->
  ScanDirTree w walk rootPath
  = (flat_map (fun p => fst (ValidateBinary w rootPath p))
              (validated_paths rootPath (walk rootPath)),
     Some (forallb (valid w rootPath) (validated_paths rootPath (walk rootPath)))).
Proof.
  intros H. apply ScanDirTree_clean. apply forallb_forall.
  intros v Hv. unfold clean. now rewrite (H v Hv).
Qed.

Lemma ScanDirTree_conjunction_witness :
  ScanDirTree (Examples.world (inr (Examples.exe Examples.good_symbols))
                              (inl "not a Go executable"))
              (fun _ => tree_visits) "/mnt"
  = ([ Printf "• validating binary %s... " ["/tool"];
       Debugf "found crypto symbol %q in section %q" ["crypto/sha256.block"; ".text"];
       Debugf "skipping further validation (not a Go binary): %v"
              ["not a Go executable"];
       PrintSuccess "success\n" ], Some true).
Proof.
  rewrite (ScanDirTree_conjunction
             (Examples.world (inr (Examples.exe Examples.good_symbols))
                             (inl "not a Go executable"))
             (fun _ => tree_visits) "/mnt").
  - reflexivity.
  - intros v [<-|[<-|[<-|[<-|[]]]]]; reflexivity.
Defined.

(** X25: a visit that fails (the walk reports an error, or [Info] fails
    for a regular file) ends the scan with [false]; the files before it
    have been validated, the files after it are not looked at. *)
Theorem ScanDirTree_traversal_error (w : World) (walk : string -> list Visit)
        (rootPath : string) (pre post : list Visit) (v : Visit) :
  walk rootPath = pre ++ v :: post ->
  (forall x, In x pre -> fails x = false) ->
  fails v = true ->
  ScanDirTree w walk rootPath
  = (flat_map (fun p => fst (ValidateBinary w rootPath p))
              (validated_paths rootPath pre), Some false).
Proof.
  intros E Hpre Hv. apply (ScanDirTree_error w walk rootPath pre post v E); [|exact Hv].
  apply forallb_forall. intros x Hx. unfold clean. now rewrite (Hpre x Hx).
Qed.

Lemma ScanDirTree_traversal_error_witness :
  ScanDirTree (Examples.world (inr (Examples.exe Examples.good_symbols))
                              (inl "not a Go executable"))
              (fun _ => tree_denied) "/mnt"
  = ([], Some false).
Proof.
  apply (ScanDirTree_traversal_error
           (Examples.world (inr (Examples.exe Examples.good_symbols))
                           (inl "not a Go executable"))
           (fun _ => tree_denied) "/mnt"
           [ VisitEntry "/mnt" (Os.mkDirEntry "mnt" Os.ModeDir)
                        (inr (N.lor Os.ModeDir 0x1ed)) ]
           [ VisitEntry "/mnt/tool" (Os.mkDirEntry "tool" 0) (inr 0x1ed%N) ]
           (VisitError "/mnt/private" "open /mnt/private: permission denied")).
  - reflexivity.
  - intros x [<-|[]]. reflexivity.
  - reflexivity.
Defined.

(** X26: [ScanDirTree] never panics, and it returns [true] exactly when
    no visit of the walk failed and no validated file got a reason. *)
Theorem ScanDirTree_total_and_consistent (w : World) (walk : string -> list Visit)
        (rootPath : string) :
  exists b,
    snd (ScanDirTree w walk rootPath) = Some b
    /\ (b = true
        <-> (forall v, In v (walk rootPath) -> fails v = false)
            /\ reasons (fst (ScanDirTree w walk rootPath)) = []).
Proof.
  destruct (forallb clean (walk rootPath)) eqn:C.
  - rewrite (ScanDirTree_clean _ _ _ C). eexists. split; [reflexivity|].
    cbn [fst]. rewrite reasons_flat_map, forallb_forall.
    assert (Hc : forall v, In v (walk rootPath) -> fails v = false).
    { intros v Hv. rewrite forallb_forall in C. specialize (C v Hv).
      unfold clean in C. now apply negb_true_iff in C. }
    split.
    + intros H. split; [exact Hc|]. apply LibFacts.flat_map_nil.
      intros p Hp. apply valid_iff. now apply H.
    + intros [_ H] p Hp. apply valid_iff.
      now apply (proj1 (LibFacts.flat_map_nil _ _) H).
  - destruct (first_failure _ C) as (pre & v & post & E & Hpre & Hv).
    rewrite (ScanDirTree_error _ _ _ _ _ _ E Hpre Hv). exists false.
    split; [reflexivity|]. split; [discriminate|].
    intros [H _]. rewrite (H v) in Hv; [discriminate|].
    rewrite E. apply in_or_app. right. now left.
Qed.

(** X27: a visit of a directory, of a file that is not regular, or of a
    file without any execute bit changes nothing: the scan of a walk with
    such a visit prints and returns what the scan of the walk without it
    does. *)
Theorem unselected_visit_ignored (w : World) (rootPath : string)
        (pre post : list Visit) (v : Visit) :
  fails v = false ->
  validated rootPath v = None ->
  ScanDirTree w (fun _ => pre ++ v :: post) rootPath
  = ScanDirTree w (fun _ => pre ++ post) rootPath.
Proof.
  intros Hf Hn. unfold ScanDirTree. f_equal.
  generalize true. induction pre as [|x pre IH]; intros a; cbn [app WalkDir].
  - now rewrite (visit_skipped w rootPath a v Hf Hn), bind_ret.
  - apply bind_ext. intros r. destruct (fst r); [reflexivity | apply IH].
Qed.

Lemma unselected_visit_ignored_witness :
  ScanDirTree (Examples.world (inr (Examples.exe Examples.good_symbols))
                              (inl "not a Go executable"))
              (fun _ => [] ++ VisitEntry "/mnt/README" (Os.mkDirEntry "README" 0)
                                         (inr 0x1a4%N) :: []) "/mnt"
  = ScanDirTree (Examples.world (inr (Examples.exe Examples.good_symbols))
                                (inl "not a Go executable"))
                (fun _ => [] ++ []) "/mnt".
Proof.
  apply (unselected_visit_ignored
           (Examples.world (inr (Examples.exe Examples.good_symbols))
                           (inl "not a Go executable"))
           "/mnt" [] []
           (VisitEntry "/mnt/README" (Os.mkDirEntry "README" 0) (inr 0x1a4%N)));
    reflexivity.
Defined.

(** X28: [stripMountPath] removes the mount path in front of a path below
    it and gives back what follows; a path that does not start with the
    mount path is returned unchanged. *)
Theorem stripMountPath_spec (mountPath : string) :
  (forall rel, stripMountPath mountPath (mountPath ++ rel) = rel)
  /\ (forall path, String.prefix mountPath path = false ->
                   stripMountPath mountPath path = path).
Proof.
  split.
  - intros rel. apply StringFacts.TrimPrefix_app.
  - intros path H. now apply StringFacts.TrimPrefix_other.
Qed.

Lemma stripMountPath_spec_witness :
  stripMountPath "/mnt" "/opt/tool" = "/opt/tool".
Proof.
  apply (proj2 (stripMountPath_spec "/mnt") "/opt/tool"). reflexivity.
Defined.

End ScannerProperties.
